(** * ADT Pulse adapter entities: alarm panel and binary sensors

    A shallow embedding of [custom_components/adtpulse/alarm_control_panel.py]
    and [custom_components/adtpulse/binary_sensor.py].

    Python dictionaries with string keys are [gmap]s, tuples and lists are
    lists, [str] is [string].  Logging, the entity-registration sink, the
    state-refresh notification and the calls into the vendor client are
    events appended to a trace that every effectful function threads; a
    raised exception is the [Raise] outcome of a computation. *)

From Stdlib Require Import Ascii ZArith DecimalString DecimalZ.
From stdpp Require Import base option list strings gmap.

Local Open Scope string_scope.
Local Open Scope list_scope.

(** ** Python strings *)

(** [sub in s] for two [str] values: [sub] occurs in [s] as a contiguous
    run of characters. *)
Fixpoint str_in (sub s : string) : bool :=
  if String.prefix sub s then true
  else match s with
       | EmptyString => false
       | String _ s' => str_in sub s'
       end.

(** [sub] occurs in [s]. *)
Definition occurs_in (sub s : string) : Prop :=
  ∃ pre post, s = pre +:+ sub +:+ post.

(** ASCII part of [str.lower], used only to phrase case-insensitive
    matching. *)
Definition ascii_lower (c : ascii) : ascii :=
  let n := nat_of_ascii c in
  if (65 <=? n)%nat && (n <=? 90)%nat then ascii_of_nat (n + 32) else c.

Fixpoint str_lower (s : string) : string :=
  match s with
  | EmptyString => EmptyString
  | String c s' => String (ascii_lower c) (str_lower s')
  end.

(** [str(n)] for an [int]: its decimal digits, after a minus sign when it
    is negative. *)
Definition str_of_int (n : Z) : string :=
  NilEmpty.string_of_int (Z.to_int n).

(** ** Exceptions and outcomes *)

Inductive PyExn :=
| ValueError (msg : string)
| RuntimeError (msg : string)
| KeyError
| IndexError
| AttributeError.

Inductive Result (A : Type) :=
| Ok (a : A)
| Raise (e : PyExn).
Arguments Ok {A} a.
Arguments Raise {A} e.

(** ** Objects owned by the vendor client library (pyadtpulse) *)

Module ADTPulseZoneData.
Record t := {
  id_ : string;
  name : string;
  tags : list string;
  status : string;
  state : string;
  last_activity_timestamp : Z
}.
End ADTPulseZoneData.

Module ADTPulseSite.
Record t := {
  id : string;
  name : string;
  status : string;
  last_updated : Z;
  (** What reading the property gives: an
      [Optional[Dict[int, ADTPulseZoneData]]] (the dictionary keeps its
      insertion order, keys are unique), or the exception that the
      vendor's property raises; pyadtpulse raises
      [RuntimeError("No zones exist")] for a site without zones. *)
  zones_as_dict : Result (option (list (Z * ADTPulseZoneData.t)))
}.
End ADTPulseSite.

Module PyADTPulse.
Record t := {
  sites : list ADTPulseSite.t;
  gateway_online : bool
}.
End PyADTPulse.

Module ADTPulseDataUpdateCoordinator.
Record t := {
  adtpulse : option PyADTPulse.t
}.
End ADTPulseDataUpdateCoordinator.

(** Constants imported from [pyadtpulse.site] and [pyadtpulse.const]. *)
Class PyADTPulseConst := {
  ADT_ALARM_ARMING : string;
  ADT_ALARM_AWAY : string;
  ADT_ALARM_DISARMING : string;
  ADT_ALARM_HOME : string;
  ADT_ALARM_OFF : string;
  ADT_ALARM_UNKNOWN : string;
  STATE_OK : string
}.

(** The vocabulary of vendor alarm statuses, in the order of [ALARM_MAP]. *)
Definition adt_alarm_vocabulary `{PyADTPulseConst} : list string :=
  [ADT_ALARM_ARMING; ADT_ALARM_AWAY; ADT_ALARM_DISARMING;
   ADT_ALARM_HOME; ADT_ALARM_OFF; ADT_ALARM_UNKNOWN].

(** ** Names supplied by the host platform (homeassistant) *)

Class HomeAssistantConst := {
  STATE_ALARM_ARMED_AWAY : string;
  STATE_ALARM_ARMED_HOME : string;
  STATE_ALARM_ARMING : string;
  STATE_ALARM_DISARMED : string;
  STATE_ALARM_DISARMING : string
}.

(** [slugify(text, separator="_")] of the [slugify] package. *)
Class Slugify := slugify : string -> string.

Inductive BinarySensorDeviceClass :=
| BATTERY | BATTERY_CHARGING | CO | COLD | CONNECTIVITY | DOOR | GARAGE_DOOR
| GAS | HEAT | LIGHT | LOCK | MOISTURE | MOTION | MOVING | OCCUPANCY
| OPENING | PLUG | POWER | PRESENCE | PROBLEM | RUNNING | SAFETY | SMOKE
| SOUND | TAMPER | UPDATE | VIBRATION | WINDOW.

#[global] Instance BinarySensorDeviceClass_eq_dec :
  EqDecision BinarySensorDeviceClass.
Proof. solve_decision. Defined.

Definition device_class_index (c : BinarySensorDeviceClass) : nat :=
  match c with
  | BATTERY => 0 | BATTERY_CHARGING => 1 | CO => 2 | COLD => 3
  | CONNECTIVITY => 4 | DOOR => 5 | GARAGE_DOOR => 6 | GAS => 7
  | HEAT => 8 | LIGHT => 9 | LOCK => 10 | MOISTURE => 11 | MOTION => 12
  | MOVING => 13 | OCCUPANCY => 14 | OPENING => 15 | PLUG => 16
  | POWER => 17 | PRESENCE => 18 | PROBLEM => 19 | RUNNING => 20
  | SAFETY => 21 | SMOKE => 22 | SOUND => 23 | TAMPER => 24 | UPDATE => 25
  | VIBRATION => 26 | WINDOW => 27
  end.

Definition device_class_of_index (n : nat) : option BinarySensorDeviceClass :=
  [BATTERY; BATTERY_CHARGING; CO; COLD; CONNECTIVITY; DOOR; GARAGE_DOOR;
   GAS; HEAT; LIGHT; LOCK; MOISTURE; MOTION; MOVING; OCCUPANCY; OPENING;
   PLUG; POWER; PRESENCE; PROBLEM; RUNNING; SAFETY; SMOKE; SOUND; TAMPER;
   UPDATE; VIBRATION; WINDOW] !! n.

#[global] Instance BinarySensorDeviceClass_countable :
  Countable BinarySensorDeviceClass.
Proof.
  apply (inj_countable device_class_index device_class_of_index).
  intros []; reflexivity.
Defined.

(** ** Instance attributes of the three entity classes

    What [__init__] stores on [self]; the methods live in the modules of
    the two source files below. *)

Module AlarmSelf.
Record t := {
  _name : string;
  _site : ADTPulseSite.t
}.
End AlarmSelf.

Module ZoneSensorSelf.
Record t := {
  _site : ADTPulseSite.t;
  _zone_id : Z;
  _my_zone : ADTPulseZoneData.t;
  _device_class : BinarySensorDeviceClass
}.
End ZoneSensorSelf.

Module GatewaySensorSelf.
Record t := {
  _service : PyADTPulse.t;
  _device_class : BinarySensorDeviceClass;
  _name : string
}.
End GatewaySensorSelf.

Inductive Entity :=
| AlarmEntity (e : AlarmSelf.t)
| ZoneSensorEntity (e : ZoneSensorSelf.t)
| GatewaySensorEntity (e : GatewaySensorSelf.t).

(** ** Observable effects *)

Inductive LogLevel := DEBUG | INFO | WARNING | ERROR.

(** One constructor per logging call of the two files, with the values
    its format string interpolates. *)
Inductive LogMsg :=
| AlarmServiceNotInitialized
| AlarmNoSites (service : option PyADTPulse.t)
| AddingAlarmControlPanel (site_id : string)
| SettingAlarmTo (action : string)
| CouldNotAction (action : string)
| SensorServiceNotInitialized
| SensorNoSites (service : PyADTPulse.t)
| SensorNoZones (sites : list ADTPulseSite.t) (service : PyADTPulse.t)
| IgnoringUnsupportedSensor (tags : list string)
| DeterminedDeviceClass (name : string) (c : BinarySensorDeviceClass)
    (tags : list string)
| AddingZoneSensor (site_id : string)
| CreatedSensor (c : BinarySensorDeviceClass) (name : string)
| UnknownDeviceType (c : BinarySensorDeviceClass)
| AddingGatewaySensor (site_name : string)
| UpdatingPulseAlarm (mapped : option string) (site_id : string).

(** The operations of a site object that the alarm panel calls. *)
Inductive SiteOp :=
| async_disarm
| async_arm_home
| async_arm_away (force_arm : bool).

Inductive Event :=
| Log (level : LogLevel) (msg : LogMsg)
| SiteCall (site_id : string) (op : SiteOp)
| WriteHAState
| AddEntities (new_entities : list Entity).

(** Events in the order they happened, oldest first. *)
Abbreviation Trace := (list Event).

(** The vendor service behind a site: what an awaited site operation
    returns, given everything that happened before it. *)
Class VendorService := site_returns : Trace -> string -> SiteOp -> bool.

(** ** Computations: a trace is threaded, an exception ends the run *)

Definition M (A : Type) : Type := Trace -> Result A * Trace.

#[global] Instance M_ret : MRet M := fun A (a : A) tr => (Ok a, tr).

#[global] Instance M_bind : MBind M := fun A B (k : A -> M B) (m : M A) tr =>
  match m tr with
  | (Ok a, tr') => k a tr'
  | (Raise e, tr') => (Raise e, tr')
  end.

Definition raise {A} (e : PyExn) : M A := fun tr => (Raise e, tr).

Definition emit (ev : Event) : M unit := fun tr => (Ok tt, tr ++ [ev]).

(** A list comprehension whose element expression has effects. *)
Fixpoint comprehension {A B} (f : A -> M B) (xs : list A) : M (list B) :=
  match xs with
  | [] => mret []
  | x :: xs' => y ← f x; ys ← comprehension f xs'; mret (y :: ys)
  end.

(** A [for] loop whose body neither breaks nor returns. *)
Fixpoint for_each {A} (xs : list A) (body : A -> M unit) : M unit :=
  match xs with
  | [] => mret tt
  | x :: xs' => body x;; for_each xs' body
  end.

Definition log (level : LogLevel) (msg : LogMsg) : M unit :=
  emit (Log level msg).

(** [self.async_write_ha_state()]. *)
Definition async_write_ha_state : M unit := emit WriteHAState.

(** The [async_add_entities] callback given to [async_setup_entry]. *)
Definition async_add_entities (new_entities : list Entity) : M unit :=
  emit (AddEntities new_entities).

(** Calling a site operation only builds the coroutine; the request is
    made, and its result known, when the coroutine is awaited. *)
Definition site_coroutine `{VendorService}
    (site : ADTPulseSite.t) (op : SiteOp) : M bool :=
  fun tr =>
    (Ok (site_returns tr (ADTPulseSite.id site) op),
     tr ++ [SiteCall (ADTPulseSite.id site) op]).

(** ** What a trace shows *)

Definition is_state_write (ev : Event) : bool :=
  match ev with WriteHAState => true | _ => false end.

Definition is_site_call (ev : Event) : bool :=
  match ev with SiteCall _ _ => true | _ => false end.

Definition is_log_at (level : LogLevel) (ev : Event) : bool :=
  match ev, level with
  | Log DEBUG _, DEBUG | Log INFO _, INFO
  | Log WARNING _, WARNING | Log ERROR _, ERROR => true
  | _, _ => false
  end.

Definition state_writes (tr : Trace) : nat :=
  length (filter (fun ev => is_state_write ev = true) tr).

Definition site_calls (tr : Trace) : list Event :=
  filter (fun ev => is_site_call ev = true) tr.

Definition logged_at (level : LogLevel) (tr : Trace) : list Event :=
  filter (fun ev => is_log_at level ev = true) tr.

Definition is_log (ev : Event) : Prop := ∃ level msg, ev = Log level msg.

(** Every entity handed to [async_add_entities], in order. *)
Fixpoint added_entities (tr : Trace) : list Entity :=
  match tr with
  | [] => []
  | AddEntities es :: tr' => es ++ added_entities tr'
  | _ :: tr' => added_entities tr'
  end.

Definition gateway_entities (es : list Entity) : list GatewaySensorSelf.t :=
  omap (fun e => match e with GatewaySensorEntity g => Some g | _ => None end)
       es.

(** [d[k]] and [k in d] on a dictionary kept as its items in insertion
    order. *)
Fixpoint dict_get {V} (d : list (Z * V)) (k : Z) : option V :=
  match d with
  | [] => None
  | (k', v) :: d' => if decide (k' = k) then Some v else dict_get d' k
  end.

(** * alarm_control_panel.py *)

Module alarm_control_panel.

Definition ALARM_MAP `{PyADTPulseConst, HomeAssistantConst}
  : gmap string (option string) :=
  <[ADT_ALARM_UNKNOWN := None]>
  (<[ADT_ALARM_OFF := Some STATE_ALARM_DISARMED]>
  (<[ADT_ALARM_HOME := Some STATE_ALARM_ARMED_HOME]>
  (<[ADT_ALARM_DISARMING := Some STATE_ALARM_DISARMING]>
  (<[ADT_ALARM_AWAY := Some STATE_ALARM_ARMED_AWAY]>
  (<[ADT_ALARM_ARMING := Some STATE_ALARM_ARMING]> ∅))))).

Module ADTPulseAlarm.

Definition __init__ `{Slugify}
    (coordinator : ADTPulseDataUpdateCoordinator.t)
    (site : ADTPulseSite.t) : M AlarmSelf.t :=
  log DEBUG (AddingAlarmControlPanel (ADTPulseSite.id site));;
  mret {| AlarmSelf._name := slugify ("ADT " +:+ ADTPulseSite.name site);
          AlarmSelf._site := site |}.

(** [None] is the platform's undefined state. *)
Definition state `{PyADTPulseConst, HomeAssistantConst}
    (self : AlarmSelf.t) : option string :=
  match ALARM_MAP !! ADTPulseSite.status (AlarmSelf._site self) with
  | Some mapped => mapped
  | None => None
  end.

Definition icon (self : AlarmSelf.t) : string := "mdi:security".

Definition _perform_alarm_action (self : AlarmSelf.t)
    (arm_disarm_func : M bool) (action : string) : M unit :=
  log DEBUG (SettingAlarmTo action);;
  success ← arm_disarm_func;
  if success : bool then async_write_ha_state
  else log WARNING (CouldNotAction action).

Definition async_alarm_disarm `{VendorService}
    (self : AlarmSelf.t) : M unit :=
  _perform_alarm_action self
    (site_coroutine (AlarmSelf._site self) async_disarm) "disarm".

Definition async_alarm_arm_home `{VendorService}
    (self : AlarmSelf.t) : M unit :=
  _perform_alarm_action self
    (site_coroutine (AlarmSelf._site self) async_arm_home) "arm home".

(** [force_arm] is left at the default of the site's method. *)
Definition async_alarm_arm_away `{VendorService}
    (self : AlarmSelf.t) : M unit :=
  _perform_alarm_action self
    (site_coroutine (AlarmSelf._site self) (async_arm_away false))
    "arm away".

Definition async_alarm_arm_custom_bypass `{VendorService}
    (self : AlarmSelf.t) : M unit :=
  _perform_alarm_action self
    (site_coroutine (AlarmSelf._site self) (async_arm_away true))
    "force arm".

Definition name (self : AlarmSelf.t) : string := AlarmSelf._name self.

Definition unique_id (self : AlarmSelf.t) : string :=
  "adt_pulse_alarm_" +:+ ADTPulseSite.id (AlarmSelf._site self).

(** The message is built before it is logged: [ALARM_MAP[...]] raises
    [KeyError] for a status that is not a key. *)
Definition _handle_coordinator_update `{PyADTPulseConst, HomeAssistantConst}
    (self : AlarmSelf.t) : M unit :=
  match ALARM_MAP !! ADTPulseSite.status (AlarmSelf._site self) with
  | None => raise KeyError
  | Some mapped =>
      log DEBUG (UpdatingPulseAlarm mapped
                   (ADTPulseSite.id (AlarmSelf._site self)));;
      async_write_ha_state
  end.

End ADTPulseAlarm.

(** The loop that fills [alarm_devices]. *)
Fixpoint collect_alarm_devices `{Slugify}
    (coordinator : ADTPulseDataUpdateCoordinator.t)
    (sites : list ADTPulseSite.t) (alarm_devices : list AlarmSelf.t)
  : M (list AlarmSelf.t) :=
  match sites with
  | [] => mret alarm_devices
  | site :: rest =>
      device ← ADTPulseAlarm.__init__ coordinator site;
      collect_alarm_devices coordinator rest (alarm_devices ++ [device])
  end.

(** [coordinator] is the value found in [hass.data] for this entry;
    [None] stands for a value that is not truthy. *)
Definition async_setup_entry `{Slugify}
    (coordinator : option ADTPulseDataUpdateCoordinator.t) : M unit :=
  match coordinator with
  | None => log ERROR AlarmServiceNotInitialized
  | Some coordinator =>
      match ADTPulseDataUpdateCoordinator.adtpulse coordinator with
      | None => raise AttributeError
      | Some adtpulse =>
          match PyADTPulse.sites adtpulse with
          | [] => log ERROR (AlarmNoSites (Some adtpulse))
          | sites =>
              alarm_devices ← collect_alarm_devices coordinator sites [];
              async_add_entities (AlarmEntity <$> alarm_devices)
          end
      end
  end.

End alarm_control_panel.

(** * binary_sensor.py *)

Module binary_sensor.

Definition ADT_DEVICE_CLASS_TAG_MAP : gmap string BinarySensorDeviceClass :=
  <["glass" := TAMPER]>
  (<["smoke" := SMOKE]>
  (<["motion" := MOTION]>
  (<["fire" := HEAT]>
  (<["garage" := GARAGE_DOOR]>
  (<["flood" := MOISTURE]>
  (<["doorWindow" := DOOR]>
  (<["co" := CO]> ∅))))))).

(** The keys of [ADT_DEVICE_CLASS_TAG_MAP] in the order the table is
    written. *)
Definition table_order : list string :=
  ["co"; "doorWindow"; "flood"; "garage"; "fire"; "motion"; "smoke";
   "glass"].

Definition ADT_SENSOR_ICON_MAP
  : gmap BinarySensorDeviceClass (string * string) :=
  <[WINDOW := ("mdi:window-open-variant", "mdi:window-closed-variant")]>
  (<[TAMPER := ("mdi:window-open", "mdi:window-closed")]>
  (<[SMOKE := ("mdi:fire", "mdi:smoke-detector-variant")]>
  (<[MOTION := ("mdi:run-fast", "mdi:motion-sensor")]>
  (<[MOISTURE := ("mdi:home-flood", "mdi:heat-wave")]>
  (<[HEAT := ("mdi:fire", "mdi:smoke-detector-variant")]>
  (<[GARAGE_DOOR := ("mdi:garage-open-variant", "mdi:garage-variant")]>
  (<[DOOR := ("mdi:door-open", "mdi:door")]>
  (<[CO := ("mdi:molecule-co", "mdi:checkbox-marked-circle")]> ∅)))))))).

Module ADTPulseZoneSensor.

Definition _get_my_zone (site : ADTPulseSite.t) (zone_id : Z)
  : M ADTPulseZoneData.t :=
  match ADTPulseSite.zones_as_dict site with
  | Raise e => raise e
  | Ok None => raise (RuntimeError "ADT pulse returned null zone")
  | Ok (Some zones) =>
      match dict_get zones zone_id with
      | Some zone => mret zone
      | None => raise KeyError
      end
  end.

(** The loop over [tags]: the first tag that is a key of the table
    sets [device_class] and ends the loop; [None] is the value
    [device_class] has before the loop. *)
Fixpoint scan_tags (tags : list string) : option BinarySensorDeviceClass :=
  match tags with
  | [] => None
  | tag :: rest =>
      match ADT_DEVICE_CLASS_TAG_MAP !! tag with
      | Some device_class => Some device_class
      | None => scan_tags rest
      end
  end.

Definition _determine_device_class (zone_data : ADTPulseZoneData.t)
  : M BinarySensorDeviceClass :=
  let tags := ADTPulseZoneData.tags zone_data in
  let device_class :=
    if decide ("sensor" ∈ tags) then scan_tags tags else None in
  match device_class with
  | None =>
      log WARNING (IgnoringUnsupportedSensor tags);;
      raise (ValueError "Unknown ADT Pulse device class None")
  | Some device_class =>
      let device_class :=
        if decide (device_class = DOOR) then
          if str_in "Window" (ADTPulseZoneData.name zone_data)
             || str_in "window" (ADTPulseZoneData.name zone_data)
          then WINDOW else device_class
        else device_class in
      log INFO (DeterminedDeviceClass (ADTPulseZoneData.name zone_data)
                  device_class tags);;
      mret device_class
  end.

Definition __init__ (coordinator : ADTPulseDataUpdateCoordinator.t)
    (site : ADTPulseSite.t) (zone_id : Z) : M ZoneSensorSelf.t :=
  log DEBUG (AddingZoneSensor (ADTPulseSite.id site));;
  my_zone ← _get_my_zone site zone_id;
  device_class ← _determine_device_class my_zone;
  log DEBUG (CreatedSensor device_class (ADTPulseZoneData.name my_zone));;
  mret {| ZoneSensorSelf._site := site;
          ZoneSensorSelf._zone_id := zone_id;
          ZoneSensorSelf._my_zone := my_zone;
          ZoneSensorSelf._device_class := device_class |}.

Definition name (self : ZoneSensorSelf.t) : string :=
  ADTPulseZoneData.name (ZoneSensorSelf._my_zone self).

Definition id (self : ZoneSensorSelf.t) : string :=
  ADTPulseZoneData.id_ (ZoneSensorSelf._my_zone self).

Definition unique_id (self : ZoneSensorSelf.t) : string :=
  "adt_pulse_sensor_" +:+ ADTPulseSite.id (ZoneSensorSelf._site self)
    +:+ "_" +:+ str_of_int (ZoneSensorSelf._zone_id self).

Definition device_class (self : ZoneSensorSelf.t)
  : BinarySensorDeviceClass :=
  ZoneSensorSelf._device_class self.

(** Tripped: the zone's state is anything but [STATE_OK]. *)
Definition is_on `{PyADTPulseConst} (self : ZoneSensorSelf.t) : bool :=
  negb (bool_decide
          (ADTPulseZoneData.state (ZoneSensorSelf._my_zone self)
           = STATE_OK)).

Definition icon `{PyADTPulseConst} (self : ZoneSensorSelf.t) : M string :=
  match ADT_SENSOR_ICON_MAP !! device_class self with
  | None =>
      log ERROR (UnknownDeviceType (device_class self));;
      mret "mdi:alert-octogram"
  | Some icons => if is_on self then mret icons.1 else mret icons.2
  end.

End ADTPulseZoneSensor.

Module ADTPulseGatewaySensor.

(** [service.sites[0]] raises [IndexError] on an empty list. *)
Definition __init__ (coordinator : ADTPulseDataUpdateCoordinator.t)
    (service : PyADTPulse.t) : M GatewaySensorSelf.t :=
  match PyADTPulse.sites service with
  | [] => raise IndexError
  | first_site :: _ =>
      log DEBUG (AddingGatewaySensor (ADTPulseSite.name first_site));;
      mret {| GatewaySensorSelf._service := service;
              GatewaySensorSelf._device_class := CONNECTIVITY;
              GatewaySensorSelf._name :=
                ADTPulseSite.name first_site +:+ " Pulse Gateway Status" |}
  end.

Definition is_on (self : GatewaySensorSelf.t) : bool :=
  PyADTPulse.gateway_online (GatewaySensorSelf._service self).

Definition name (self : GatewaySensorSelf.t) : string :=
  GatewaySensorSelf._name self.

Definition unique_id (self : GatewaySensorSelf.t) : Result string :=
  match PyADTPulse.sites (GatewaySensorSelf._service self) with
  | [] => Raise IndexError
  | first_site :: _ =>
      Ok ("adt_pulse_gateway_" +:+ ADTPulseSite.id first_site)
  end.

Definition icon (self : GatewaySensorSelf.t) : string :=
  if is_on self then "mdi:lan-connect" else "mdi:lan-disconnect".

End ADTPulseGatewaySensor.

(** The body of the loop over the sites.  The [isinstance] test of the
    source, which raises [RuntimeError] for an element that is not an
    [ADTPulseSite], has no counterpart here: every element of [sites]
    is an [ADTPulseSite.t].  The property [zones_as_dict] is read first
    by the guard, and an exception it raises is not caught. *)
Definition setup_site (coordinator : ADTPulseDataUpdateCoordinator.t)
    (adt_service : PyADTPulse.t) (site : ADTPulseSite.t) : M unit :=
  match ADTPulseSite.zones_as_dict site with
  | Raise e => raise e
  | Ok None | Ok (Some []) =>
      log ERROR (SensorNoZones (PyADTPulse.sites adt_service) adt_service)
  | Ok (Some zones) =>
      entities ← comprehension
                   (ADTPulseZoneSensor.__init__ coordinator site)
                   zones.*1;
      async_add_entities (ZoneSensorEntity <$> entities);;
      gateway ← ADTPulseGatewaySensor.__init__ coordinator adt_service;
      async_add_entities [GatewaySensorEntity gateway]
  end.

(** [coordinator] is the value found in [hass.data] for this entry;
    [None] stands for Python's [None]. *)
Definition async_setup_entry
    (coordinator : option ADTPulseDataUpdateCoordinator.t) : M unit :=
  match coordinator with
  | None => raise AttributeError
  | Some coordinator =>
      match ADTPulseDataUpdateCoordinator.adtpulse coordinator with
      | None => log ERROR SensorServiceNotInitialized
      | Some adt_service =>
          match PyADTPulse.sites adt_service with
          | [] => log ERROR (SensorNoSites adt_service)
          | sites => for_each sites (setup_site coordinator adt_service)
          end
      end
  end.

End binary_sensor.

(** * Vocabulary of the statements *)

(** The zone has the tag "sensor" and one of its tags is a key of
    [ADT_DEVICE_CLASS_TAG_MAP]. *)
Definition classifiable (zone_data : ADTPulseZoneData.t) : Prop :=
  "sensor" ∈ ADTPulseZoneData.tags zone_data
  ∧ is_Some (binary_sensor.ADTPulseZoneSensor.scan_tags
               (ADTPulseZoneData.tags zone_data)).

#[global] Instance classifiable_dec zone_data : Decision (classifiable zone_data).
Proof. unfold classifiable. apply _. Defined.

(** Reading [site.zones_as_dict] gives a truthy value: a dictionary that
    is not empty. *)
Definition has_zones (site : ADTPulseSite.t) : bool :=
  match ADTPulseSite.zones_as_dict site with
  | Ok (Some (_ :: _)) => true
  | _ => false
  end.

(** The gateway sensor that [async_setup_entry] builds for a service
    whose first site is [first_site]. *)
Definition gateway_of (adt_service : PyADTPulse.t)
    (first_site : ADTPulseSite.t) : GatewaySensorSelf.t :=
  {| GatewaySensorSelf._service := adt_service;
     GatewaySensorSelf._device_class := CONNECTIVITY;
     GatewaySensorSelf._name :=
       ADTPulseSite.name first_site +:+ " Pulse Gateway Status" |}.

(** The alarm panel that [ADTPulseAlarm.__init__] builds for a site. *)
Definition alarm_of `{Slugify} (site : ADTPulseSite.t) : AlarmSelf.t :=
  {| AlarmSelf._name := slugify ("ADT " +:+ ADTPulseSite.name site);
     AlarmSelf._site := site |}.

Definition alarm_entities (es : list Entity) : list AlarmSelf.t :=
  omap (fun e => match e with AlarmEntity a => Some a | _ => None end) es.

Definition zone_sensor_entities (es : list Entity) : list ZoneSensorSelf.t :=
  omap (fun e => match e with ZoneSensorEntity z => Some z | _ => None end)
       es.

(** The four commands of the alarm panel. *)
Definition alarm_commands `{VendorService} : list (AlarmSelf.t → M unit) :=
  [alarm_control_panel.ADTPulseAlarm.async_alarm_disarm;
   alarm_control_panel.ADTPulseAlarm.async_alarm_arm_home;
   alarm_control_panel.ADTPulseAlarm.async_alarm_arm_away;
   alarm_control_panel.ADTPulseAlarm.async_alarm_arm_custom_bypass].

(** The character [c] occurs in [s]. *)
Fixpoint has_char (c : ascii) (s : string) : bool :=
  match s with
  | EmptyString => false
  | String c' s' => if Ascii.eqb c c' then true else has_char c s'
  end.

(** * Sample values *)

(** The values the constants have in pyadtpulse and in homeassistant. *)
Definition pyadtpulse_values : PyADTPulseConst :=
  {| ADT_ALARM_ARMING := "arming";
     ADT_ALARM_AWAY := "away";
     ADT_ALARM_DISARMING := "disarming";
     ADT_ALARM_HOME := "stay";
     ADT_ALARM_OFF := "off";
     ADT_ALARM_UNKNOWN := "unknown";
     STATE_OK := "OK" |}.

Definition homeassistant_values : HomeAssistantConst :=
  {| STATE_ALARM_ARMED_AWAY := "armed_away";
     STATE_ALARM_ARMED_HOME := "armed_home";
     STATE_ALARM_ARMING := "arming";
     STATE_ALARM_DISARMED := "disarmed";
     STATE_ALARM_DISARMING := "disarming" |}.

Definition example_site (status : string) : ADTPulseSite.t :=
  {| ADTPulseSite.id := "1234567";
     ADTPulseSite.name := "Home";
     ADTPulseSite.status := status;
     ADTPulseSite.last_updated := 0;
     ADTPulseSite.zones_as_dict := Raise (RuntimeError "No zones exist") |}.

Definition example_alarm (status : string) : AlarmSelf.t :=
  {| AlarmSelf._name := "adt_home";
     AlarmSelf._site := example_site status |}.


Definition example_zone (name : string) (tags : list string) (state : string)
  : ADTPulseZoneData.t :=
  {| ADTPulseZoneData.id_ := "sensor-12";
     ADTPulseZoneData.name := name;
     ADTPulseZoneData.tags := tags;
     ADTPulseZoneData.status := "Okay";
     ADTPulseZoneData.state := state;
     ADTPulseZoneData.last_activity_timestamp := 1569078085275 |}.

(** A vendor service whose operations all return [success]. *)
Definition vendor_returning (success : bool) : VendorService :=
  fun _ _ _ => success.

Definition example_zone_sensor (c : BinarySensorDeviceClass) (state : string)
  : ZoneSensorSelf.t :=
  {| ZoneSensorSelf._site := example_site "off";
     ZoneSensorSelf._zone_id := 12;
     ZoneSensorSelf._my_zone :=
       example_zone "South Office Motion" ["sensor"; "motion"] state;
     ZoneSensorSelf._device_class := c |}.

(** A site with the given zones. *)
Definition example_site_with (id name : string)
    (zones : Result (option (list (Z * ADTPulseZoneData.t))))
  : ADTPulseSite.t :=
  {| ADTPulseSite.id := id;
     ADTPulseSite.name := name;
     ADTPulseSite.status := "off";
     ADTPulseSite.last_updated := 0;
     ADTPulseSite.zones_as_dict := zones |}.

Definition example_service (sites : list ADTPulseSite.t) : PyADTPulse.t :=
  {| PyADTPulse.sites := sites; PyADTPulse.gateway_online := true |}.

Definition example_coordinator (sites : list ADTPulseSite.t)
  : ADTPulseDataUpdateCoordinator.t :=
  {| ADTPulseDataUpdateCoordinator.adtpulse := Some (example_service sites) |}.

Definition example_home : ADTPulseSite.t :=
  example_site_with "1" "Home"
    (Ok (Some [(1%Z, example_zone "Front Door"
                       ["sensor"; "doorWindow"] "OK")])).

Definition example_lodge : ADTPulseSite.t :=
  example_site_with "2" "Lodge"
    (Ok (Some [(4%Z, example_zone "Loft" ["sensor"; "motion"] "OK");
               (2%Z, example_zone "Back Window"
                       ["sensor"; "doorWindow"] "OK")])).

Definition example_cabin : ADTPulseSite.t :=
  example_site_with "3" "Cabin"
    (Ok (Some [(7%Z, example_zone "Hall" ["sensor"; "motion"] "OK")])).

(** A site with two zones, one of which has no tag of the table. *)
Definition example_barn : ADTPulseSite.t :=
  example_site_with "4" "Barn"
    (Ok (Some [(2%Z, example_zone "Loft" ["sensor"; "motion"] "OK");
               (3%Z, example_zone "Meter" ["sensor"; "power"] "OK")])).

(** A site without zones, as pyadtpulse presents it. *)
Definition example_shed : ADTPulseSite.t :=
  example_site_with "5" "Shed" (Raise (RuntimeError "No zones exist")).

(** Three sites whose zones can all be classified. *)
Definition example_sites : list ADTPulseSite.t :=
  [example_home; example_lodge; example_cabin].

(** A stand-in for [slugify] that leaves the text as it is. *)
Definition example_slugify : Slugify := fun text => text.

(** * The specification's wording, for comparison with the code *)

(** "contains the substring window (case-insensitive)". *)
Definition contains_window_ignoring_case (name : string) : bool :=
  str_in "window" (str_lower name).

(** "scan in table-defined priority order, take the first matching
    classification": the first key of the table, in the table's order,
    that is among the zone's tags. *)
Definition first_table_entry_present (tags : list string)
  : option BinarySensorDeviceClass :=
  match filter (λ key, key ∈ tags) binary_sensor.table_order with
  | [] => None
  | key :: _ => binary_sensor.ADT_DEVICE_CLASS_TAG_MAP !! key
  end.

(** * Properties *)

(** ** Substrings *)

Lemma append_empty_l s : "" +:+ s = s.
Proof. reflexivity. Qed.

Lemma append_cons a s1 s2 : String a s1 +:+ s2 = String a (s1 +:+ s2).
Proof. reflexivity. Qed.

Lemma prefix_starts_with sub s :
  String.prefix sub s = true ↔ ∃ post, s = sub +:+ post.
Proof.
  revert s. induction sub as [|a sub IH]; intros s.
  - split; [intros _; by exists s | by destruct s].
  - destruct s as [|b s]; cbn [String.prefix].
    + split; [done | intros [post Hpost]; discriminate Hpost].
    + destruct (ascii_dec a b) as [->|Hab].
      * rewrite IH. split; intros [post Hpost]; exists post.
        -- rewrite append_cons. by f_equal.
        -- rewrite append_cons in Hpost. by injection Hpost.
      * split; [done | intros [post Hpost]].
        rewrite append_cons in Hpost. congruence.
Qed.

Lemma str_in_cons sub a s :
  str_in sub (String a s) =
  if String.prefix sub (String a s) then true else str_in sub s.
Proof. reflexivity. Qed.

Lemma str_in_prefix sub s : String.prefix sub s = true → str_in sub s = true.
Proof. intros Hp. destruct s; cbn [str_in]. all: by rewrite Hp. Qed.

Lemma str_in_occurs sub s : str_in sub s = true ↔ occurs_in sub s.
Proof.
  split.
  - induction s as [|a s IH].
    + cbn [str_in]. destruct (String.prefix sub "") eqn:Hp; [|done].
      apply prefix_starts_with in Hp as [post Hpost]. intros _.
      by exists "", post.
    + rewrite str_in_cons.
      destruct (String.prefix sub (String a s)) eqn:Hp.
      * apply prefix_starts_with in Hp as [post Hpost]. intros _.
        by exists "", post.
      * intros [pre [post ->]]%IH. by exists (String a pre), post.
  - intros [pre [post ->]].
    induction pre as [|a pre IH].
    + rewrite append_empty_l.
      apply str_in_prefix, prefix_starts_with. by exists post.
    + rewrite append_cons, str_in_cons, IH. by destruct (String.prefix _ _).
Qed.

(** ** Traces *)

Lemma added_entities_app tr1 tr2 :
  added_entities (tr1 ++ tr2) = added_entities tr1 ++ added_entities tr2.
Proof.
  induction tr1 as [|[] tr1 IH]; simpl; rewrite ?IH; [done..|].
  by rewrite (assoc (++)).
Qed.

Lemma added_entities_logs logs : Forall is_log logs → added_entities logs = [].
Proof.
  induction 1 as [|ev logs [level [msg ->]] _ IH]; simpl; done.
Qed.

Lemma state_writes_app tr1 tr2 :
  state_writes (tr1 ++ tr2) = state_writes tr1 + state_writes tr2.
Proof. unfold state_writes. by rewrite filter_app, length_app. Qed.

Lemma site_calls_app tr1 tr2 :
  site_calls (tr1 ++ tr2) = site_calls tr1 ++ site_calls tr2.
Proof. unfold site_calls. by rewrite filter_app. Qed.

Lemma logged_at_app level tr1 tr2 :
  logged_at level (tr1 ++ tr2) = logged_at level tr1 ++ logged_at level tr2.
Proof. unfold logged_at. by rewrite filter_app. Qed.

(** ** Running computations *)

Lemma run_bind {A B} (m : M A) (k : A → M B) tr :
  (m ≫= k) tr =
  match m tr with
  | (Ok a, tr') => k a tr'
  | (Raise e, tr') => (Raise e, tr')
  end.
Proof. reflexivity. Qed.

Lemma run_bind_ok {A B} (m : M A) (k : A → M B) tr a tr' :
  m tr = (Ok a, tr') → (m ≫= k) tr = k a tr'.
Proof. intros Hm. by rewrite run_bind, Hm. Qed.

Lemma run_bind_raise {A B} (m : M A) (k : A → M B) tr e tr' :
  m tr = (Raise e, tr') → (m ≫= k) tr = (Raise e, tr').
Proof. intros Hm. by rewrite run_bind, Hm. Qed.

Lemma run_log level msg tr : log level msg tr = (Ok tt, tr ++ [Log level msg]).
Proof. reflexivity. Qed.

(** Settles a decidable closed proposition by evaluation. *)
Ltac by_evaluation := apply (bool_decide_unpack _); vm_compute; exact I.

(** Unfolds the primitive effects of a straight-line computation. *)
Ltac run_effects :=
  cbv [mbind M_bind mret M_ret async_add_entities async_write_ha_state
       log emit raise].

Lemma comprehension_cons_ok {A B} (f : A → M B) x xs tr y tr1 :
  f x tr = (Ok y, tr1) →
  comprehension f (x :: xs) tr =
  match comprehension f xs tr1 with
  | (Ok ys, tr2) => (Ok (y :: ys), tr2)
  | (Raise e, tr2) => (Raise e, tr2)
  end.
Proof.
  intros Hx. cbn [comprehension]. rewrite (run_bind_ok _ _ _ _ _ Hx).
  rewrite run_bind. by destruct (comprehension f xs tr1) as [[ys|e] tr2].
Qed.

Lemma comprehension_cons_raise {A B} (f : A → M B) x xs tr e tr1 :
  f x tr = (Raise e, tr1) → comprehension f (x :: xs) tr = (Raise e, tr1).
Proof. intros Hx. cbn [comprehension]. by rewrite (run_bind_raise _ _ _ _ _ Hx). Qed.

Lemma for_each_app {A} (xs ys : list A) body tr tr' :
  for_each xs body tr = (Ok tt, tr') →
  for_each (xs ++ ys) body tr = for_each ys body tr'.
Proof.
  revert tr. induction xs as [|x xs IH]; intros tr; simpl.
  - by intros [= ->].
  - rewrite !run_bind. destruct (body x tr) as [[[]|e] tr1]; [|done].
    apply IH.
Qed.

(** ** The alarm panel's state *)

Section alarm_state.
Context `{PyADTPulseConst, HomeAssistantConst}.
Import alarm_control_panel.

Lemma vocabulary_distinct :
  NoDup adt_alarm_vocabulary →
  ADT_ALARM_ARMING ≠ ADT_ALARM_AWAY ∧ ADT_ALARM_ARMING ≠ ADT_ALARM_DISARMING
  ∧ ADT_ALARM_ARMING ≠ ADT_ALARM_HOME ∧ ADT_ALARM_ARMING ≠ ADT_ALARM_OFF
  ∧ ADT_ALARM_ARMING ≠ ADT_ALARM_UNKNOWN
  ∧ ADT_ALARM_AWAY ≠ ADT_ALARM_DISARMING ∧ ADT_ALARM_AWAY ≠ ADT_ALARM_HOME
  ∧ ADT_ALARM_AWAY ≠ ADT_ALARM_OFF ∧ ADT_ALARM_AWAY ≠ ADT_ALARM_UNKNOWN
  ∧ ADT_ALARM_DISARMING ≠ ADT_ALARM_HOME
  ∧ ADT_ALARM_DISARMING ≠ ADT_ALARM_OFF
  ∧ ADT_ALARM_DISARMING ≠ ADT_ALARM_UNKNOWN
  ∧ ADT_ALARM_HOME ≠ ADT_ALARM_OFF ∧ ADT_ALARM_HOME ≠ ADT_ALARM_UNKNOWN
  ∧ ADT_ALARM_OFF ≠ ADT_ALARM_UNKNOWN.
Proof.
  unfold adt_alarm_vocabulary. rewrite !NoDup_cons, !not_elem_of_cons.
  tauto.
Qed.

Lemma ALARM_MAP_outside status :
  status ∉ adt_alarm_vocabulary → ALARM_MAP !! status = None.
Proof.
  unfold adt_alarm_vocabulary, ALARM_MAP. rewrite !not_elem_of_cons.
  intros (? & ? & ? & ? & ? & ? & _).
  by rewrite !lookup_insert_ne, lookup_empty by done.
Qed.

(** C1: with pairwise distinct vendor statuses, [state] maps arming,
    away, disarming, home and off to STATE_ALARM_ARMING,
    STATE_ALARM_ARMED_AWAY, STATE_ALARM_DISARMING, STATE_ALARM_ARMED_HOME
    and STATE_ALARM_DISARMED; the unknown status and every status that
    is not a key of [ALARM_MAP] give [None]. *)
Theorem C1_state_follows_alarm_map (self : AlarmSelf.t) :
  NoDup adt_alarm_vocabulary →
  let status := ADTPulseSite.status (AlarmSelf._site self) in
  (status = ADT_ALARM_ARMING →
     ADTPulseAlarm.state self = Some STATE_ALARM_ARMING)
  ∧ (status = ADT_ALARM_AWAY →
     ADTPulseAlarm.state self = Some STATE_ALARM_ARMED_AWAY)
  ∧ (status = ADT_ALARM_DISARMING →
     ADTPulseAlarm.state self = Some STATE_ALARM_DISARMING)
  ∧ (status = ADT_ALARM_HOME →
     ADTPulseAlarm.state self = Some STATE_ALARM_ARMED_HOME)
  ∧ (status = ADT_ALARM_OFF →
     ADTPulseAlarm.state self = Some STATE_ALARM_DISARMED)
  ∧ (status = ADT_ALARM_UNKNOWN → ADTPulseAlarm.state self = None)
  ∧ (status ∉ adt_alarm_vocabulary → ADTPulseAlarm.state self = None).
Proof.
  intros Hdistinct status.
  pose proof (vocabulary_distinct Hdistinct) as Hne.
  unfold ADTPulseAlarm.state. fold status.
  destruct Hne as (?&?&?&?&?&?&?&?&?&?&?&?&?&?&?).
  repeat split; intros Hstatus.
  7: by rewrite ALARM_MAP_outside.
  all: rewrite Hstatus; unfold ALARM_MAP.
  all: by rewrite ?lookup_insert_ne, lookup_insert_eq by congruence.
Qed.

End alarm_state.

Lemma C1_witness :
  NoDup (@adt_alarm_vocabulary pyadtpulse_values)
  ∧ @alarm_control_panel.ADTPulseAlarm.state
      pyadtpulse_values homeassistant_values (example_alarm "stay")
    = Some "armed_home".
Proof.
  assert (NoDup (@adt_alarm_vocabulary pyadtpulse_values)) as Hdistinct
    by by_evaluation.
  split; [exact Hdistinct|].
  destruct (@C1_state_follows_alarm_map pyadtpulse_values homeassistant_values
              (example_alarm "stay") Hdistinct)
    as (_ & _ & _ & Hhome & _).
  apply Hhome. reflexivity.
Defined.

(** ** Classifying a zone *)

Section classification.
Import binary_sensor ADTPulseZoneSensor.

Lemma scan_tags_none tags :
  scan_tags tags = None
  ↔ Forall (λ tag, ADT_DEVICE_CLASS_TAG_MAP !! tag = None) tags.
Proof.
  induction tags as [|tag tags IH]; simpl.
  - done.
  - rewrite Forall_cons, <- IH.
    destruct (ADT_DEVICE_CLASS_TAG_MAP !! tag).
    + split; [done | by intros [? _]].
    + tauto.
Qed.

Lemma scan_tags_first pre tag post c :
  Forall (λ tag, ADT_DEVICE_CLASS_TAG_MAP !! tag = None) pre →
  ADT_DEVICE_CLASS_TAG_MAP !! tag = Some c →
  scan_tags (pre ++ tag :: post) = Some c.
Proof.
  intros Hpre Htag. induction Hpre as [|skipped pre Hskipped _ IH]; simpl.
  - by rewrite Htag.
  - by rewrite Hskipped.
Qed.

Lemma determine_device_class_found zone_data c tr :
  "sensor" ∈ ADTPulseZoneData.tags zone_data →
  scan_tags (ADTPulseZoneData.tags zone_data) = Some c →
  let c' :=
    if decide (c = DOOR) then
      if str_in "Window" (ADTPulseZoneData.name zone_data)
         || str_in "window" (ADTPulseZoneData.name zone_data)
      then WINDOW else c
    else c in
  _determine_device_class zone_data tr =
  (Ok c',
   tr ++ [Log INFO (DeterminedDeviceClass (ADTPulseZoneData.name zone_data)
                      c' (ADTPulseZoneData.tags zone_data))]).
Proof.
  intros Hsensor Hscan. unfold _determine_device_class.
  rewrite decide_True by done. by rewrite Hscan.
Qed.

Lemma determine_device_class_unknown zone_data tr :
  "sensor" ∉ ADTPulseZoneData.tags zone_data
  ∨ scan_tags (ADTPulseZoneData.tags zone_data) = None →
  _determine_device_class zone_data tr =
  (Raise (ValueError "Unknown ADT Pulse device class None"),
   tr ++ [Log WARNING
            (IgnoringUnsupportedSensor (ADTPulseZoneData.tags zone_data))]).
Proof.
  intros Hnone. unfold _determine_device_class.
  destruct (decide ("sensor" ∈ ADTPulseZoneData.tags zone_data)) as [Hin|Hout].
  - destruct Hnone as [Hout|Hscan]; [done|]. by rewrite Hscan.
  - done.
Qed.

(** C2, as the code has it: for a zone that has the tag "sensor" and
    whose first known tag maps to the door classification,
    [_determine_device_class] returns the window classification exactly
    when the name contains "Window" or "window" in one of these two
    spellings, and the door classification exactly when it contains
    neither. *)
Theorem C2_window_for_two_spellings zone_data tr :
  "sensor" ∈ ADTPulseZoneData.tags zone_data →
  scan_tags (ADTPulseZoneData.tags zone_data) = Some DOOR →
  ∃ c,
    _determine_device_class zone_data tr =
    (Ok c,
     tr ++ [Log INFO (DeterminedDeviceClass
                        (ADTPulseZoneData.name zone_data) c
                        (ADTPulseZoneData.tags zone_data))])
    ∧ (c = WINDOW ↔ occurs_in "Window" (ADTPulseZoneData.name zone_data)
                    ∨ occurs_in "window" (ADTPulseZoneData.name zone_data))
    ∧ (c = DOOR ↔ ¬ (occurs_in "Window" (ADTPulseZoneData.name zone_data)
                     ∨ occurs_in "window" (ADTPulseZoneData.name zone_data))).
Proof.
  intros Hsensor Hscan.
  rewrite (determine_device_class_found _ DOOR) by done.
  rewrite decide_True by done.
  pose proof (str_in_occurs "Window" (ADTPulseZoneData.name zone_data))
    as Hupper.
  pose proof (str_in_occurs "window" (ADTPulseZoneData.name zone_data))
    as Hlower.
  destruct (str_in "Window" _), (str_in "window" _); simpl;
    (eexists; split; [reflexivity|]); intuition congruence.
Qed.

(** C3, as the code has it: for a zone that has the tag "sensor", the
    tags are scanned in the order they have in the zone's own tag
    sequence, and the classification is that of the first tag that is a
    key of the table, whatever comes after it: that class itself when it
    is not the door class, the door or the window class when it is. *)
Theorem C3_first_known_tag_in_zone_order zone_data tr pre tag post c :
  ADTPulseZoneData.tags zone_data = pre ++ tag :: post →
  "sensor" ∈ ADTPulseZoneData.tags zone_data →
  Forall (λ skipped, ADT_DEVICE_CLASS_TAG_MAP !! skipped = None) pre →
  ADT_DEVICE_CLASS_TAG_MAP !! tag = Some c →
  ∃ c',
    _determine_device_class zone_data tr =
    (Ok c',
     tr ++ [Log INFO (DeterminedDeviceClass
                        (ADTPulseZoneData.name zone_data) c'
                        (ADTPulseZoneData.tags zone_data))])
    ∧ (c ≠ DOOR → c' = c)
    ∧ (c = DOOR → c' = DOOR ∨ c' = WINDOW).
Proof.
  intros Htags Hsensor Hpre Htag.
  assert (scan_tags (ADTPulseZoneData.tags zone_data) = Some c) as Hscan
    by (rewrite Htags; by apply scan_tags_first).
  rewrite (determine_device_class_found _ c) by done.
  eexists; split; [reflexivity|]. split.
  - intros Hother. by rewrite decide_False.
  - intros ->. rewrite decide_True by done.
    destruct (_ || _); [by right | by left].
Qed.

Lemma get_my_zone_found site zones zone_id zone_data tr :
  ADTPulseSite.zones_as_dict site = Ok (Some zones) →
  dict_get zones zone_id = Some zone_data →
  _get_my_zone site zone_id tr = (Ok zone_data, tr).
Proof. intros Hzones Hget. unfold _get_my_zone. by rewrite Hzones, Hget. Qed.

Lemma zone_init_raises coordinator site zones zone_id zone_data tr :
  ADTPulseSite.zones_as_dict site = Ok (Some zones) →
  dict_get zones zone_id = Some zone_data →
  ¬ classifiable zone_data →
  __init__ coordinator site zone_id tr =
  (Raise (ValueError "Unknown ADT Pulse device class None"),
   tr ++ [Log DEBUG (AddingZoneSensor (ADTPulseSite.id site));
          Log WARNING (IgnoringUnsupportedSensor
                         (ADTPulseZoneData.tags zone_data))]).
Proof.
  intros Hzones Hget Hnot. unfold __init__.
  rewrite run_bind, run_log.
  rewrite run_bind, (get_my_zone_found _ zones _ zone_data) by done.
  rewrite run_bind, determine_device_class_unknown.
  - by rewrite <- (assoc (++)).
  - unfold classifiable in Hnot.
    destruct (decide ("sensor" ∈ ADTPulseZoneData.tags zone_data));
      [right | by left].
    destruct (scan_tags _) eqn:Hscan; [|done].
    destruct Hnot. by split.
Qed.

Lemma zone_init_ok coordinator site zones zone_id zone_data tr :
  ADTPulseSite.zones_as_dict site = Ok (Some zones) →
  dict_get zones zone_id = Some zone_data →
  classifiable zone_data →
  ∃ c,
    __init__ coordinator site zone_id tr =
    (Ok {| ZoneSensorSelf._site := site;
           ZoneSensorSelf._zone_id := zone_id;
           ZoneSensorSelf._my_zone := zone_data;
           ZoneSensorSelf._device_class := c |},
     tr ++ [Log DEBUG (AddingZoneSensor (ADTPulseSite.id site));
            Log INFO (DeterminedDeviceClass
                        (ADTPulseZoneData.name zone_data) c
                        (ADTPulseZoneData.tags zone_data));
            Log DEBUG (CreatedSensor c (ADTPulseZoneData.name zone_data))]).
Proof.
  intros Hzones Hget [Hsensor [c Hscan]]. unfold __init__.
  rewrite run_bind, run_log.
  rewrite run_bind, (get_my_zone_found _ zones _ zone_data) by done.
  rewrite run_bind, (determine_device_class_found _ c) by done.
  eexists. rewrite run_bind, run_log.
  by rewrite <- !(assoc (++)).
Qed.

Lemma dict_get_key {V} (d : list (Z * V)) k :
  k ∈ d.*1 → is_Some (dict_get d k).
Proof.
  induction d as [|[k' v] d IH]; simpl.
  - by intros ?%elem_of_nil.
  - intros Hk. destruct (decide (k' = k)); [done|].
    apply elem_of_cons in Hk as [->|Hk]; [done | by apply IH].
Qed.

Lemma dict_get_item {V} (d : list (Z * V)) k v :
  dict_get d k = Some v → (k, v) ∈ d.
Proof.
  induction d as [|[k' v'] d IH]; simpl; [done|].
  destruct (decide (k' = k)) as [->|].
  - intros [= ->]. apply elem_of_cons. by left.
  - intros Hget. apply elem_of_cons. right. by apply IH.
Qed.

(** Building the zone sensors of a site: either every zone is
    classified and the list is built, or a [ValueError] ends the
    comprehension; nothing but log records is produced on the way. *)
Lemma zone_sensors_outcome coordinator site zones keys tr :
  ADTPulseSite.zones_as_dict site = Ok (Some zones) →
  Forall (λ k, k ∈ zones.*1) keys →
  ∃ logs, Forall is_log logs ∧
    ((Forall (λ k, ∀ z, dict_get zones k = Some z → classifiable z) keys
      ∧ ∃ entities,
          comprehension (__init__ coordinator site) keys tr
          = (Ok entities, tr ++ logs))
     ∨ (Exists (λ k, ∃ z, dict_get zones k = Some z ∧ ¬ classifiable z) keys
        ∧ comprehension (__init__ coordinator site) keys tr
          = (Raise (ValueError "Unknown ADT Pulse device class None"),
             tr ++ logs))).
Proof.
  intros Hzones Hkeys. revert tr.
  induction Hkeys as [|k keys Hk _ IH]; intros tr.
  - exists []. split; [done|]. left. split; [done|].
    exists []. simpl. by rewrite (right_id [] (++)).
  - apply dict_get_key in Hk as [z Hget].
    destruct (decide (classifiable z)) as [Hz|Hz].
    + destruct (zone_init_ok coordinator site zones k z tr) as [c Hinit];
        [done..|].
      rewrite (comprehension_cons_ok _ _ _ _ _ _ Hinit).
      match type of Hinit with _ = (Ok ?e, tr ++ ?l) =>
        set (entity := e); set (logs1 := l) end.
      assert (Forall is_log logs1) as Hlogs1
        by (repeat constructor; unfold is_log; eauto).
      destruct (IH (tr ++ logs1)) as (logs2 & Hlogs2 & Hrest).
      exists (logs1 ++ logs2). split; [by apply Forall_app|].
      destruct Hrest as [[Hall [entities ->]]|[Hbad ->]].
      * left. split.
        -- constructor; [|done]. intros z' Hz'. congruence.
        -- exists (entity :: entities). by rewrite (assoc (++)).
      * right. split; [by apply Exists_cons_tl|]. by rewrite (assoc (++)).
    + rewrite (comprehension_cons_raise _ _ _ _ _ _
                 (zone_init_raises coordinator _ zones _ z tr Hzones Hget Hz)).
      eexists. split; [|right; split; [|reflexivity]].
      * repeat constructor; unfold is_log; eauto.
      * apply Exists_cons_hd. eauto.
Qed.

Lemma setup_site_no_zones coordinator adt_service site tr :
  ADTPulseSite.zones_as_dict site = Ok None
  ∨ ADTPulseSite.zones_as_dict site = Ok (Some []) →
  setup_site coordinator adt_service site tr =
  (Ok tt,
   tr ++ [Log ERROR (SensorNoZones (PyADTPulse.sites adt_service)
                       adt_service)]).
Proof. unfold setup_site. by intros [-> | ->]. Qed.

Lemma setup_site_read_raises coordinator adt_service site e tr :
  ADTPulseSite.zones_as_dict site = Raise e →
  setup_site coordinator adt_service site tr = (Raise e, tr).
Proof. unfold setup_site. by intros ->. Qed.

Lemma setup_site_unclassifiable
    coordinator adt_service site zones zone_id zone_data tr :
  ADTPulseSite.zones_as_dict site = Ok (Some zones) →
  dict_get zones zone_id = Some zone_data →
  ¬ classifiable zone_data →
  ∃ logs, Forall is_log logs ∧
    setup_site coordinator adt_service site tr =
    (Raise (ValueError "Unknown ADT Pulse device class None"), tr ++ logs).
Proof.
  intros Hzones Hget Hnot. unfold setup_site. rewrite Hzones.
  destruct zones as [|item zones']; [done|].
  set (zones := item :: zones') in *.
  destruct (zone_sensors_outcome coordinator site zones zones.*1 tr)
    as (logs & Hlogs & [[Hall _]|[_ Hraise]]); [done|by apply Forall_forall|..].
  - rewrite Forall_forall in Hall. destruct Hnot.
    apply (Hall zone_id); [|done].
    apply dict_get_item in Hget.
    apply list_elem_of_fmap. by exists (zone_id, zone_data).
  - exists logs. split; [done|]. by rewrite run_bind, Hraise.
Qed.

Lemma setup_site_ok coordinator adt_service first_site other_sites site tr :
  PyADTPulse.sites adt_service = first_site :: other_sites →
  has_zones site = true →
  (∀ zones, ADTPulseSite.zones_as_dict site = Ok (Some zones) →
            Forall (λ item, classifiable item.2) zones) →
  ∃ logs entities, Forall is_log logs ∧
    setup_site coordinator adt_service site tr =
    (Ok tt,
     tr ++ logs
        ++ [AddEntities (ZoneSensorEntity <$> entities);
            Log DEBUG (AddingGatewaySensor (ADTPulseSite.name first_site));
            AddEntities
              [GatewaySensorEntity (gateway_of adt_service first_site)]]).
Proof.
  intros Hsites Hhas Hall. unfold has_zones, setup_site in *.
  destruct (ADTPulseSite.zones_as_dict site) as [[[|item zones']|]|e]
    eqn:Hzones; [done| |done..].
  set (zones := item :: zones') in *.
  specialize (Hall zones eq_refl). rewrite Forall_forall in Hall.
  destruct (zone_sensors_outcome coordinator site zones zones.*1 tr)
    as (logs & Hlogs & [[_ [entities Hbuilt]]|[Hbad _]]);
    [done|by apply Forall_forall|..].
  - exists logs, entities. split; [done|].
    rewrite run_bind, Hbuilt.
    unfold ADTPulseGatewaySensor.__init__. rewrite Hsites.
    run_effects. by rewrite <- !(assoc (++)).
  - apply Exists_exists in Hbad as (k & _ & z & Hget & Hnot).
    destruct Hnot. by apply (Hall (k, z)), dict_get_item.
Qed.

(** C4: a zone none of whose tags is a key of the classification table
    makes [_determine_device_class] raise [ValueError] after a warning;
    the constructor of the zone sensor raises it too and so returns no
    entity, and the set-up of the zone's site ends with that error
    without having handed any entity to the platform. *)
Theorem C4_no_known_tag_raises zone_data :
  Forall (λ tag, ADT_DEVICE_CLASS_TAG_MAP !! tag = None)
         (ADTPulseZoneData.tags zone_data) →
  (∀ tr,
     _determine_device_class zone_data tr =
     (Raise (ValueError "Unknown ADT Pulse device class None"),
      tr ++ [Log WARNING (IgnoringUnsupportedSensor
                            (ADTPulseZoneData.tags zone_data))]))
  ∧ (∀ coordinator site zones zone_id tr,
       ADTPulseSite.zones_as_dict site = Ok (Some zones) →
       dict_get zones zone_id = Some zone_data →
       __init__ coordinator site zone_id tr =
       (Raise (ValueError "Unknown ADT Pulse device class None"),
        tr ++ [Log DEBUG (AddingZoneSensor (ADTPulseSite.id site));
               Log WARNING (IgnoringUnsupportedSensor
                              (ADTPulseZoneData.tags zone_data))]))
  ∧ (∀ coordinator adt_service site zones zone_id tr,
       ADTPulseSite.zones_as_dict site = Ok (Some zones) →
       dict_get zones zone_id = Some zone_data →
       ∃ tr',
         setup_site coordinator adt_service site tr =
         (Raise (ValueError "Unknown ADT Pulse device class None"), tr')
         ∧ added_entities tr' = added_entities tr).
Proof.
  intros Hunknown%scan_tags_none.
  assert (¬ classifiable zone_data) as Hnot.
  { intros [_ [c Hc]]. congruence. }
  split; [|split].
  - intros tr. apply determine_device_class_unknown. by right.
  - intros coordinator site zones zone_id tr Hzones Hget.
    by apply (zone_init_raises _ _ zones).
  - intros coordinator adt_service site zones zone_id tr Hzones Hget.
    destruct (setup_site_unclassifiable coordinator adt_service site zones
                zone_id zone_data tr) as (logs & Hlogs & Hrun); [done..|].
    exists (tr ++ logs). split; [done|].
    rewrite added_entities_app, (added_entities_logs logs) by done.
    by rewrite (right_id [] (++)).
Qed.

(** C9: a zone without the tag "sensor" is never classified, whatever
    its other tags are: [_determine_device_class] raises [ValueError]
    and the constructor of the zone sensor returns no entity. *)
Theorem C9_sensor_tag_required zone_data :
  "sensor" ∉ ADTPulseZoneData.tags zone_data →
  (∀ tr,
     _determine_device_class zone_data tr =
     (Raise (ValueError "Unknown ADT Pulse device class None"),
      tr ++ [Log WARNING (IgnoringUnsupportedSensor
                            (ADTPulseZoneData.tags zone_data))]))
  ∧ (∀ coordinator site zones zone_id tr,
       ADTPulseSite.zones_as_dict site = Ok (Some zones) →
       dict_get zones zone_id = Some zone_data →
       __init__ coordinator site zone_id tr =
       (Raise (ValueError "Unknown ADT Pulse device class None"),
        tr ++ [Log DEBUG (AddingZoneSensor (ADTPulseSite.id site));
               Log WARNING (IgnoringUnsupportedSensor
                              (ADTPulseZoneData.tags zone_data))])).
Proof.
  intros Hmissing. split.
  - intros tr. apply determine_device_class_unknown. by left.
  - intros coordinator site zones zone_id tr Hzones Hget.
    apply (zone_init_raises _ _ zones); [done..|]. by intros [? _].
Qed.

End classification.

Lemma C2_witness :
  ∃ c,
    binary_sensor.ADTPulseZoneSensor._determine_device_class
      (example_zone "Kitchen Window" ["sensor"; "doorWindow"] "OK") [] =
    (Ok c,
     [] ++ [Log INFO (DeterminedDeviceClass "Kitchen Window" c
                        ["sensor"; "doorWindow"])])
    ∧ (c = WINDOW ↔ occurs_in "Window" "Kitchen Window"
                    ∨ occurs_in "window" "Kitchen Window")
    ∧ (c = DOOR ↔ ¬ (occurs_in "Window" "Kitchen Window"
                     ∨ occurs_in "window" "Kitchen Window")).
Proof.
  apply (C2_window_for_two_spellings
           (example_zone "Kitchen Window" ["sensor"; "doorWindow"] "OK") []).
  - by_evaluation.
  - vm_compute. reflexivity.
Defined.

(** C2 as worded fails: the name "WINDOW" contains "window" when case is
    ignored, yet the zone is classified as a door. *)
Lemma C2_counterexample_upper_case :
  ¬ (∀ zone_data tr,
       "sensor" ∈ ADTPulseZoneData.tags zone_data →
       binary_sensor.ADTPulseZoneSensor.scan_tags
         (ADTPulseZoneData.tags zone_data) = Some DOOR →
       (binary_sensor.ADTPulseZoneSensor._determine_device_class
          zone_data tr).1
       = Ok (if contains_window_ignoring_case
                  (ADTPulseZoneData.name zone_data)
             then WINDOW else DOOR)).
Proof.
  intros Hclaim.
  specialize (Hclaim (example_zone "WINDOW" ["sensor"; "doorWindow"] "OK") []).
  assert ("sensor" ∈ ["sensor"; "doorWindow"]) as Hsensor
    by by_evaluation.
  specialize (Hclaim Hsensor eq_refl). vm_compute in Hclaim. discriminate.
Qed.

Lemma C3_witness :
  ∃ c',
    binary_sensor.ADTPulseZoneSensor._determine_device_class
      (example_zone "Hall" ["sensor"; "motion"; "co"] "OK") [] =
    (Ok c',
     [] ++ [Log INFO (DeterminedDeviceClass "Hall" c'
                        ["sensor"; "motion"; "co"])])
    ∧ (MOTION ≠ DOOR → c' = MOTION)
    ∧ (MOTION = DOOR → c' = DOOR ∨ c' = WINDOW).
Proof.
  apply (C3_first_known_tag_in_zone_order
           (example_zone "Hall" ["sensor"; "motion"; "co"] "OK") []
           ["sensor"] "motion" ["co"] MOTION).
  - reflexivity.
  - by_evaluation.
  - by_evaluation.
  - vm_compute. reflexivity.
Defined.

(** C3 as worded fails: with the tags sensor, motion, co the first table
    entry whose tag is present is co, yet the zone is classified by
    motion, the tag that comes first in the zone. *)
Lemma C3_counterexample_zone_order_decides :
  ¬ (∀ zone_data tr c,
       "sensor" ∈ ADTPulseZoneData.tags zone_data →
       first_table_entry_present (ADTPulseZoneData.tags zone_data) = Some c →
       c ≠ DOOR →
       (binary_sensor.ADTPulseZoneSensor._determine_device_class
          zone_data tr).1 = Ok c).
Proof.
  intros Hclaim.
  specialize (Hclaim (example_zone "Hall" ["sensor"; "motion"; "co"] "OK")
                [] CO).
  assert ("sensor" ∈ ["sensor"; "motion"; "co"]) as Hsensor by by_evaluation.
  assert (first_table_entry_present ["sensor"; "motion"; "co"] = Some CO)
    as Hfirst by (vm_compute; reflexivity).
  specialize (Hclaim Hsensor Hfirst ltac:(discriminate)).
  vm_compute in Hclaim. discriminate.
Qed.

Lemma C4_witness :
  binary_sensor.ADTPulseZoneSensor._determine_device_class
    (example_zone "Attic" ["sensor"; "temperature"] "OK") [] =
  (Raise (ValueError "Unknown ADT Pulse device class None"),
   [] ++ [Log WARNING (IgnoringUnsupportedSensor ["sensor"; "temperature"])]).
Proof.
  apply (C4_no_known_tag_raises
           (example_zone "Attic" ["sensor"; "temperature"] "OK")).
  by_evaluation.
Defined.

Lemma C9_witness :
  binary_sensor.ADTPulseZoneSensor._determine_device_class
    (example_zone "South Office Motion" ["motion"; "doorWindow"] "OK") [] =
  (Raise (ValueError "Unknown ADT Pulse device class None"),
   [] ++ [Log WARNING (IgnoringUnsupportedSensor ["motion"; "doorWindow"])]).
Proof.
  apply (C9_sensor_tag_required
           (example_zone "South Office Motion" ["motion"; "doorWindow"] "OK")).
  by_evaluation.
Defined.

(** ** Icons *)

Section icons.
Context `{PyADTPulseConst}.
Import binary_sensor.

(** The classifications that have icons. *)
Lemma icon_table_keys :
  dom ADT_SENSOR_ICON_MAP
  = list_to_set [CO; DOOR; GARAGE_DOOR; HEAT; MOISTURE; MOTION; SMOKE;
                 TAMPER; WINDOW].
Proof. apply (bool_decide_unpack _). vm_compute. exact I. Qed.

(** C6: for a classification of the icon table, the zone sensor's icon
    is the first icon of the pair when the sensor is on (its zone's
    state is not [STATE_OK]) and the second when it is off; the gateway
    sensor's icon is "mdi:lan-connect" when the gateway is online and
    "mdi:lan-disconnect" when it is not. *)
Theorem C6_icon_by_state (self : ZoneSensorSelf.t) active inactive :
  ADT_SENSOR_ICON_MAP !! ADTPulseZoneSensor.device_class self
  = Some (active, inactive) →
  (∀ tr,
     ADTPulseZoneSensor.icon self tr =
     (Ok (if ADTPulseZoneSensor.is_on self then active else inactive), tr))
  ∧ (ADTPulseZoneSensor.is_on self = true
     ↔ ADTPulseZoneData.state (ZoneSensorSelf._my_zone self) ≠ STATE_OK)
  ∧ (∀ gateway : GatewaySensorSelf.t,
       ADTPulseGatewaySensor.icon gateway =
       if PyADTPulse.gateway_online (GatewaySensorSelf._service gateway)
       then "mdi:lan-connect" else "mdi:lan-disconnect").
Proof.
  intros Hicons. split; [|split].
  - intros tr. unfold ADTPulseZoneSensor.icon. rewrite Hicons.
    by destruct (ADTPulseZoneSensor.is_on self).
  - unfold ADTPulseZoneSensor.is_on.
    rewrite negb_true_iff, bool_decide_eq_false. done.
  - done.
Qed.

End icons.

Lemma C6_witness :
  @binary_sensor.ADTPulseZoneSensor.icon pyadtpulse_values
    (example_zone_sensor MOTION "Motion") [] =
  (Ok (if @binary_sensor.ADTPulseZoneSensor.is_on pyadtpulse_values
             (example_zone_sensor MOTION "Motion")
       then "mdi:run-fast" else "mdi:motion-sensor"), []).
Proof.
  apply (@C6_icon_by_state pyadtpulse_values
           (example_zone_sensor MOTION "Motion")
           "mdi:run-fast" "mdi:motion-sensor").
  vm_compute. reflexivity.
Defined.

(** ** Arming and disarming *)

Section alarm_commands.
Context `{VendorService}.
Import alarm_control_panel ADTPulseAlarm.

Lemma perform_alarm_action_run self arm_disarm_func action tr success tr' :
  arm_disarm_func (tr ++ [Log DEBUG (SettingAlarmTo action)])
  = (Ok success, tr') →
  _perform_alarm_action self arm_disarm_func action tr =
  (Ok tt,
   tr' ++ [if success then WriteHAState
           else Log WARNING (CouldNotAction action)]).
Proof.
  intros Hawait. unfold _perform_alarm_action.
  rewrite run_bind, run_log, run_bind, Hawait.
  by destruct success.
Qed.

(** C5: when the awaited operation returns true,
    [_perform_alarm_action] returns normally having issued exactly one
    state-refresh notification after it; when it returns false, it
    returns normally having issued none and having logged one warning.
    The operation is awaited once in both cases. *)
Theorem C5_refresh_once_on_success
    self arm_disarm_func action tr success tr' :
  arm_disarm_func (tr ++ [Log DEBUG (SettingAlarmTo action)])
  = (Ok success, tr') →
  ∃ final,
    _perform_alarm_action self arm_disarm_func action tr = (Ok tt, final)
    ∧ final = tr' ++ [if success then WriteHAState
                      else Log WARNING (CouldNotAction action)]
    ∧ state_writes final = state_writes tr' + (if success then 1 else 0)
    ∧ logged_at WARNING final
      = logged_at WARNING tr'
        ++ (if success then []
            else [Log WARNING (CouldNotAction action)])
    ∧ site_calls final = site_calls tr'.
Proof.
  intros Hawait. eexists. split; [by apply perform_alarm_action_run|].
  split; [done|].
  rewrite state_writes_app, logged_at_app, site_calls_app.
  destruct success; cbn; by rewrite ?(right_id [] (++)).
Qed.

(** C7: each of the four commands logs, awaits the one site operation
    it stands for (disarm, arm home, arm away, arm away with
    [force_arm] set) and only then, according to what the operation
    returned, refreshes the state or logs a warning. *)
Theorem C7_commands_forwarded (self : AlarmSelf.t) tr :
  Forall
    (λ '(command, op, action),
       let site_id := ADTPulseSite.id (AlarmSelf._site self) in
       let awaiting := tr ++ [Log DEBUG (SettingAlarmTo action)] in
       command self tr =
       (Ok tt,
        awaiting
          ++ [SiteCall site_id op;
              if site_returns awaiting site_id op then WriteHAState
              else Log WARNING (CouldNotAction action)]))
    [(async_alarm_disarm, async_disarm, "disarm");
     (async_alarm_arm_home, async_arm_home, "arm home");
     (async_alarm_arm_away, async_arm_away false, "arm away");
     (async_alarm_arm_custom_bypass, async_arm_away true, "force arm")].
Proof.
  repeat constructor; cbv zeta.
  all: unfold async_alarm_disarm, async_alarm_arm_home,
         async_alarm_arm_away, async_alarm_arm_custom_bypass.
  all: erewrite perform_alarm_action_run by reflexivity.
  all: by rewrite <- (assoc (++)).
Qed.

End alarm_commands.

Lemma C5_witness :
  ∃ final,
    alarm_control_panel.ADTPulseAlarm._perform_alarm_action
      (example_alarm "off")
      (@site_coroutine (vendor_returning true) (example_site "off")
         async_disarm)
      "disarm" [] = (Ok tt, final)
    ∧ final = [Log DEBUG (SettingAlarmTo "disarm");
               SiteCall "1234567" async_disarm]
              ++ [if true then WriteHAState
                  else Log WARNING (CouldNotAction "disarm")]
    ∧ state_writes final
      = state_writes [Log DEBUG (SettingAlarmTo "disarm");
                      SiteCall "1234567" async_disarm]
        + (if true then 1 else 0)
    ∧ logged_at WARNING final
      = logged_at WARNING [Log DEBUG (SettingAlarmTo "disarm");
                           SiteCall "1234567" async_disarm]
        ++ (if true then [] else [Log WARNING (CouldNotAction "disarm")])
    ∧ site_calls final
      = site_calls [Log DEBUG (SettingAlarmTo "disarm");
                    SiteCall "1234567" async_disarm].
Proof.
  apply (C5_refresh_once_on_success (example_alarm "off")
           (@site_coroutine (vendor_returning true) (example_site "off")
              async_disarm)
           "disarm" [] true).
  reflexivity.
Defined.

(** ** Setting up the platforms *)

Section setup.
Import binary_sensor.

Lemma gateway_entities_app es1 es2 :
  gateway_entities (es1 ++ es2) = gateway_entities es1 ++ gateway_entities es2.
Proof. unfold gateway_entities. apply omap_app. Qed.

Lemma gateway_entities_zone_sensors entities :
  gateway_entities (ZoneSensorEntity <$> entities) = [].
Proof. by induction entities. Qed.

(** The loop over the sites when every dictionary can be read and every
    zone can be classified: each site with zones contributes the same
    gateway sensor. *)
Lemma setup_sites_gateways
    coordinator adt_service first_site other_sites sites tr :
  PyADTPulse.sites adt_service = first_site :: other_sites →
  Forall (λ site,
            ∃ read, ADTPulseSite.zones_as_dict site = Ok read
                    ∧ ∀ zones, read = Some zones →
                               Forall (λ item, classifiable item.2) zones)
         sites →
  ∃ new,
    for_each sites (setup_site coordinator adt_service) tr
    = (Ok tt, tr ++ new)
    ∧ gateway_entities (added_entities new)
      = replicate (length (filter (λ site, has_zones site = true) sites))
                  (gateway_of adt_service first_site).
Proof.
  intros Hfirst Hall. revert tr.
  induction Hall as [|site sites (read & Hread & Hsite) _ IH]; intros tr.
  - exists []. by rewrite (right_id [] (++)).
  - cbn [for_each]. rewrite run_bind, filter_cons.
    destruct (has_zones site) eqn:Hzones.
    + destruct (setup_site_ok coordinator adt_service first_site
                  other_sites site tr) as (logs & entities & Hlogs & ->);
        [done|done| |].
      { intros zones Hzones'. apply Hsite. congruence. }
      match goal with |- context [tr ++ logs ++ ?l] => set (added := l) end.
      destruct (IH (tr ++ logs ++ added)) as (new & -> & Hgateways).
      exists (logs ++ added ++ new). split.
      * by rewrite <- !(assoc (++)).
      * rewrite !added_entities_app, (added_entities_logs logs) by done.
        rewrite decide_True by done. cbn [length replicate].
        rewrite <- Hgateways. subst added. cbn [added_entities].
        rewrite !gateway_entities_app, gateway_entities_zone_sensors.
        reflexivity.
    + rewrite setup_site_no_zones.
      2: { unfold has_zones in Hzones. rewrite Hread in Hzones |- *.
           destruct read as [[|item zones]|]; [by right|done|by left]. }
      destruct (IH (tr ++ [Log ERROR (SensorNoZones
                                        (PyADTPulse.sites adt_service)
                                        adt_service)]))
        as (new & -> & Hgateways).
      eexists. split; [by rewrite <- (assoc (++))|].
      rewrite decide_False by done. by rewrite added_entities_app.
Qed.

(** C10, as the code has it: when the zone dictionary of every site can
    be read and every zone can be classified, so that nothing raises,
    the set-up of the sensor platform completes and has added one
    gateway sensor for each site that has zones; all of them have the
    name and the unique id made from the service's first site. *)
Theorem C10_gateway_sensor_per_site_with_zones
    coordinator adt_service first_site other_sites tr :
  ADTPulseDataUpdateCoordinator.adtpulse coordinator = Some adt_service →
  PyADTPulse.sites adt_service = first_site :: other_sites →
  Forall (λ site,
            ∃ read, ADTPulseSite.zones_as_dict site = Ok read
                    ∧ ∀ zones, read = Some zones →
                               Forall (λ item, classifiable item.2) zones)
         (PyADTPulse.sites adt_service) →
  ∃ new,
    async_setup_entry (Some coordinator) tr = (Ok tt, tr ++ new)
    ∧ let gateways := gateway_entities (added_entities new) in
      length gateways
      = length (filter (λ site, has_zones site = true)
                       (PyADTPulse.sites adt_service))
      ∧ Forall
          (λ gateway,
             ADTPulseGatewaySensor.name gateway
             = ADTPulseSite.name first_site +:+ " Pulse Gateway Status"
             ∧ ADTPulseGatewaySensor.unique_id gateway
               = Ok ("adt_pulse_gateway_" +:+ ADTPulseSite.id first_site))
          gateways.
Proof.
  intros Hservice Hfirst Hall.
  destruct (setup_sites_gateways coordinator adt_service first_site
              other_sites (PyADTPulse.sites adt_service) tr)
    as (new & Hrun & Hgateways); [done..|].
  exists new. split.
  - unfold async_setup_entry. rewrite Hservice.
    rewrite <- Hrun. by rewrite Hfirst.
  - cbv zeta. rewrite Hgateways. split.
    + by rewrite length_replicate.
    + apply Forall_replicate. split; [done|].
      unfold ADTPulseGatewaySensor.unique_id, gateway_of. cbn.
      by rewrite Hfirst.
Qed.

End setup.

(** C8, at a site without zones as pyadtpulse presents it: the sites are
    Home, Shed and Cabin, and reading the zone dictionary of Shed raises.
    The set-up of the sensor platform then ends with that
    [RuntimeError]: no error is logged, Shed is not skipped, and the
    trace is the one the set-up of Home left, so that Cabin, the site
    after Shed, is never set up. *)
Theorem C8_site_without_zones_ends_setup :
  let sites := [example_home; example_shed; example_cabin] in
  let run :=
    binary_sensor.async_setup_entry (Some (example_coordinator sites)) [] in
  run.1 = Raise (RuntimeError "No zones exist")
  ∧ logged_at ERROR run.2 = []
  ∧ run.2 = (binary_sensor.setup_site (example_coordinator sites)
               (example_service sites) example_home []).2
  ∧ length (gateway_entities (added_entities run.2)) = 1
  ∧ length (zone_sensor_entities (added_entities run.2)) = 1.
Proof. by vm_compute. Qed.

(** C10 as worded fails: Home, Barn and Cabin all have zones, but a zone
    of Barn cannot be classified, the set-up ends with its [ValueError]
    and one gateway sensor has been added, not three. *)
Lemma C10_counterexample_unclassifiable_zone :
  ¬ (∀ coordinator adt_service,
       ADTPulseDataUpdateCoordinator.adtpulse coordinator = Some adt_service →
       length (gateway_entities
                 (added_entities
                    (binary_sensor.async_setup_entry (Some coordinator) []).2))
       = length (filter (λ site, has_zones site = true)
                        (PyADTPulse.sites adt_service))).
Proof.
  intros Hclaim.
  specialize (Hclaim
                (example_coordinator [example_home; example_barn; example_cabin])
                (example_service [example_home; example_barn; example_cabin])
                eq_refl).
  vm_compute in Hclaim. discriminate.
Qed.

Lemma C10_witness :
  ∃ new,
    binary_sensor.async_setup_entry
      (Some (example_coordinator example_sites)) [] = (Ok tt, [] ++ new)
    ∧ let gateways := gateway_entities (added_entities new) in
      length gateways
      = length (filter (λ site, has_zones site = true)
                       (PyADTPulse.sites (example_service example_sites)))
      ∧ Forall
          (λ gateway,
             binary_sensor.ADTPulseGatewaySensor.name gateway
             = ADTPulseSite.name example_home +:+ " Pulse Gateway Status"
             ∧ binary_sensor.ADTPulseGatewaySensor.unique_id gateway
               = Ok ("adt_pulse_gateway_" +:+ ADTPulseSite.id example_home))
          gateways.
Proof.
  apply (C10_gateway_sensor_per_site_with_zones
           (example_coordinator example_sites) (example_service example_sites)
           example_home [example_lodge; example_cabin] []).
  - reflexivity.
  - reflexivity.
  - repeat (apply Forall_cons_2;
              [eexists; split; [reflexivity|];
               intros zones [= <-];
               repeat (apply Forall_cons_2; [by_evaluation|]);
               apply Forall_nil_2|]).
    apply Forall_nil_2.
Defined.

(** The sample service has three sites with zones, and its set-up adds
    three gateway sensors with one and the same unique id. *)
Example gateway_sensors_share_an_id :
  binary_sensor.ADTPulseGatewaySensor.unique_id
  <$> gateway_entities
        (added_entities
           (binary_sensor.async_setup_entry
              (Some (example_coordinator example_sites)) []).2)
  = [Ok "adt_pulse_gateway_1"; Ok "adt_pulse_gateway_1";
     Ok "adt_pulse_gateway_1"].
Proof. vm_compute. reflexivity. Qed.

(** * Further properties of the alarm panel *)

Section alarm_panel_more.
Context `{PyADTPulseConst, HomeAssistantConst}.
Import alarm_control_panel.

Lemma ALARM_MAP_values status mapped :
  ALARM_MAP !! status = Some mapped →
  mapped ∈ [None; Some STATE_ALARM_DISARMED; Some STATE_ALARM_ARMED_HOME;
            Some STATE_ALARM_DISARMING; Some STATE_ALARM_ARMED_AWAY;
            Some STATE_ALARM_ARMING].
Proof.
  unfold ALARM_MAP. rewrite !lookup_insert, lookup_empty.
  repeat case_decide; intros [= <-]; rewrite !elem_of_cons; tauto.
Qed.

Lemma ALARM_MAP_vocabulary status :
  status ∈ adt_alarm_vocabulary ↔ is_Some (ALARM_MAP !! status).
Proof.
  unfold adt_alarm_vocabulary, ALARM_MAP.
  rewrite !elem_of_cons, elem_of_nil, !lookup_insert, lookup_empty.
  repeat case_decide; subst; split; intros Hin; try done; try tauto.
  intuition congruence.
Qed.

(** Whatever strings the constants are, [state] is the undefined state
    or one of the five platform states of the table: a vendor status is
    never passed through. *)
Theorem state_is_undefined_or_a_platform_state (self : AlarmSelf.t) :
  ADTPulseAlarm.state self
  ∈ [None; Some STATE_ALARM_DISARMED; Some STATE_ALARM_ARMED_HOME;
     Some STATE_ALARM_DISARMING; Some STATE_ALARM_ARMED_AWAY;
     Some STATE_ALARM_ARMING].
Proof.
  unfold ADTPulseAlarm.state.
  destruct (ALARM_MAP !! _) as [mapped|] eqn:Hmapped.
  - by apply (ALARM_MAP_values _ _ Hmapped).
  - apply elem_of_cons. by left.
Qed.

(** On a coordinator update with a status of the vocabulary, the panel
    logs the very state that [state] reports and refreshes once. *)
Theorem alarm_update_logs_the_reported_state (self : AlarmSelf.t) tr :
  ADTPulseSite.status (AlarmSelf._site self) ∈ adt_alarm_vocabulary →
  ADTPulseAlarm._handle_coordinator_update self tr =
  (Ok tt,
   tr ++ [Log DEBUG (UpdatingPulseAlarm (ADTPulseAlarm.state self)
                       (ADTPulseSite.id (AlarmSelf._site self)));
          WriteHAState]).
Proof.
  intros [mapped Hmapped]%ALARM_MAP_vocabulary.
  unfold ADTPulseAlarm._handle_coordinator_update, ADTPulseAlarm.state.
  rewrite Hmapped. run_effects. by rewrite <- (assoc (++)).
Qed.

(** With a status outside the vocabulary [state] quietly reports the
    undefined state, but a coordinator update raises [KeyError] and
    neither logs nor refreshes. *)
Theorem alarm_update_raises_on_unmapped_status (self : AlarmSelf.t) tr :
  ADTPulseSite.status (AlarmSelf._site self) ∉ adt_alarm_vocabulary →
  ADTPulseAlarm.state self = None
  ∧ ADTPulseAlarm._handle_coordinator_update self tr = (Raise KeyError, tr).
Proof.
  intros Hout%ALARM_MAP_outside.
  unfold ADTPulseAlarm._handle_coordinator_update, ADTPulseAlarm.state.
  by rewrite Hout.
Qed.

End alarm_panel_more.

Lemma alarm_update_logs_the_reported_state_witness :
  @alarm_control_panel.ADTPulseAlarm._handle_coordinator_update
    pyadtpulse_values homeassistant_values (example_alarm "away") [] =
  (Ok tt,
   [] ++ [Log DEBUG (UpdatingPulseAlarm
                       (@alarm_control_panel.ADTPulseAlarm.state
                          pyadtpulse_values homeassistant_values
                          (example_alarm "away"))
                       "1234567");
          WriteHAState]).
Proof.
  apply (@alarm_update_logs_the_reported_state
           pyadtpulse_values homeassistant_values (example_alarm "away") []).
  by_evaluation.
Defined.

Lemma alarm_update_raises_on_unmapped_status_witness :
  @alarm_control_panel.ADTPulseAlarm.state
    pyadtpulse_values homeassistant_values (example_alarm "night") = None
  ∧ @alarm_control_panel.ADTPulseAlarm._handle_coordinator_update
      pyadtpulse_values homeassistant_values (example_alarm "night") []
    = (Raise KeyError, []).
Proof.
  apply (@alarm_update_raises_on_unmapped_status
           pyadtpulse_values homeassistant_values (example_alarm "night") []).
  by_evaluation.
Defined.

Lemma append_cancel_l s a b : s +:+ a = s +:+ b → a = b.
Proof.
  induction s as [|c s IH]; [done|].
  rewrite !append_cons. intros [= Heq]. by apply IH.
Qed.

Lemma alarm_entities_alarms (alarms : list AlarmSelf.t) :
  alarm_entities (AlarmEntity <$> alarms) = alarms.
Proof. induction alarms as [|a alarms IH]; [done|]. cbn. by f_equal. Qed.

Section alarm_setup.
Context `{Slugify}.
Import alarm_control_panel.

Lemma collect_alarm_devices_run coordinator sites alarm_devices tr :
  collect_alarm_devices coordinator sites alarm_devices tr =
  (Ok (alarm_devices ++ (alarm_of <$> sites)),
   tr ++ ((λ site, Log DEBUG (AddingAlarmControlPanel (ADTPulseSite.id site)))
          <$> sites)).
Proof.
  revert alarm_devices tr.
  induction sites as [|site sites IH]; intros alarm_devices tr.
  - cbn. by rewrite !(right_id [] (++)).
  - cbn [collect_alarm_devices]. unfold ADTPulseAlarm.__init__.
    run_effects. fold (alarm_of site). rewrite IH.
    by rewrite <- !(assoc (++)).
Qed.

(** With at least one site, the set-up of the alarm platform returns
    normally after one debug record per site and a single call of
    [async_add_entities] with one panel per site, in the order of the
    sites. *)
Theorem alarm_setup_adds_one_panel_per_site coordinator adt_service tr :
  ADTPulseDataUpdateCoordinator.adtpulse coordinator = Some adt_service →
  PyADTPulse.sites adt_service ≠ [] →
  async_setup_entry (Some coordinator) tr =
  (Ok tt,
   tr ++ ((λ site, Log DEBUG (AddingAlarmControlPanel (ADTPulseSite.id site)))
          <$> PyADTPulse.sites adt_service)
      ++ [AddEntities (AlarmEntity <$> (alarm_of <$> PyADTPulse.sites
                                                       adt_service))]).
Proof.
  intros Hservice Hsites. unfold async_setup_entry. rewrite Hservice.
  destruct (PyADTPulse.sites adt_service) as [|site sites] eqn:Hlist; [done|].
  rewrite run_bind, collect_alarm_devices_run.
  run_effects. by rewrite <- (assoc (++)).
Qed.

(** The unique id of a panel determines the id of its site, so the
    panels that the set-up adds for sites with distinct ids have
    distinct unique ids. *)
Theorem alarm_unique_ids_distinct coordinator adt_service tr :
  ADTPulseDataUpdateCoordinator.adtpulse coordinator = Some adt_service →
  NoDup (ADTPulseSite.id <$> PyADTPulse.sites adt_service) →
  ∃ new,
    async_setup_entry (Some coordinator) tr = (Ok tt, tr ++ new)
    ∧ NoDup (ADTPulseAlarm.unique_id
             <$> alarm_entities (added_entities new)).
Proof.
  intros Hservice Hids.
  destruct (PyADTPulse.sites adt_service) as [|site sites] eqn:Hlist.
  - eexists. split.
    + unfold async_setup_entry. rewrite Hservice, Hlist. reflexivity.
    + cbn. constructor.
  - eexists. split.
    + rewrite (alarm_setup_adds_one_panel_per_site _ adt_service) by
        (done || by rewrite Hlist).
      rewrite Hlist. reflexivity.
    + rewrite added_entities_app. rewrite added_entities_logs.
      2: { apply Forall_fmap, Forall_forall. intros s _.
           unfold is_log. cbn. eauto. }
      cbn [app added_entities]. rewrite (right_id [] (++)).
      rewrite alarm_entities_alarms, <- list_fmap_compose.
      assert (ADTPulseAlarm.unique_id ∘ alarm_of
              = (λ id, "adt_pulse_alarm_" +:+ id) ∘ ADTPulseSite.id) as ->
        by done.
      rewrite list_fmap_compose. apply NoDup_fmap_2; [|done].
      intros a b. apply append_cancel_l.
Qed.

End alarm_setup.

Lemma alarm_setup_adds_one_panel_per_site_witness :
  @alarm_control_panel.async_setup_entry example_slugify
    (Some (example_coordinator example_sites)) [] =
  (Ok tt,
   [] ++ ((λ site, Log DEBUG (AddingAlarmControlPanel (ADTPulseSite.id site)))
          <$> PyADTPulse.sites (example_service example_sites))
      ++ [AddEntities
            (AlarmEntity
             <$> (@alarm_of example_slugify
                  <$> PyADTPulse.sites (example_service example_sites)))]).
Proof.
  apply (@alarm_setup_adds_one_panel_per_site example_slugify
           (example_coordinator example_sites)
           (example_service example_sites) []).
  - reflexivity.
  - discriminate.
Defined.

Lemma alarm_unique_ids_distinct_witness :
  ∃ new,
    @alarm_control_panel.async_setup_entry example_slugify
      (Some (example_coordinator example_sites)) [] = (Ok tt, [] ++ new)
    ∧ NoDup (alarm_control_panel.ADTPulseAlarm.unique_id
             <$> alarm_entities (added_entities new)).
Proof.
  apply (@alarm_unique_ids_distinct example_slugify
           (example_coordinator example_sites)
           (example_service example_sites) []).
  - reflexivity.
  - by_evaluation.
Defined.

Section command_sequences.
Context `{VendorService}.
Import alarm_control_panel ADTPulseAlarm.

Lemma alarm_command_run command (self : AlarmSelf.t) tr :
  command ∈ alarm_commands →
  ∃ op action,
    command self tr =
    (Ok tt,
     tr ++ [Log DEBUG (SettingAlarmTo action);
            SiteCall (ADTPulseSite.id (AlarmSelf._site self)) op;
            if site_returns (tr ++ [Log DEBUG (SettingAlarmTo action)])
                 (ADTPulseSite.id (AlarmSelf._site self)) op
            then WriteHAState else Log WARNING (CouldNotAction action)]).
Proof.
  unfold alarm_commands. rewrite !elem_of_cons, elem_of_nil.
  intros [->|[->|[->|[->|[]]]]].
  all: unfold async_alarm_disarm, async_alarm_arm_home,
         async_alarm_arm_away, async_alarm_arm_custom_bypass.
  all: do 2 eexists; erewrite perform_alarm_action_run by reflexivity.
  all: by rewrite <- !(assoc (++)).
Qed.

(** Any sequence of commands, on any panels, runs to its end without an
    exception; it makes one site call per command, never more, every
    command ends in either a state refresh or a warning, and no entity
    is added. *)
Theorem alarm_commands_compose
    (calls : list ((AlarmSelf.t → M unit) * AlarmSelf.t)) tr :
  Forall (λ call, call.1 ∈ alarm_commands) calls →
  ∃ new,
    for_each calls (λ call, call.1 call.2) tr = (Ok tt, tr ++ new)
    ∧ length (site_calls new) = length calls
    ∧ state_writes new + length (logged_at WARNING new) = length calls
    ∧ added_entities new = [].
Proof.
  intros Hcalls. revert tr.
  induction Hcalls as [|[command self] calls Hcommand _ IH]; intros tr.
  - exists []. by rewrite (right_id [] (++)).
  - cbn [for_each fst snd]. rewrite run_bind.
    destruct (alarm_command_run command self tr Hcommand)
      as (op & action & ->).
    match goal with |- context [for_each _ _ (tr ++ ?l)] =>
      set (step := l) end.
    destruct (IH (tr ++ step)) as (new & -> & Hcalls' & Hends & Hadded).
    exists (step ++ new). split; [by rewrite (assoc (++))|].
    rewrite site_calls_app, state_writes_app, logged_at_app, !length_app,
      added_entities_app, Hcalls', Hadded.
    assert (length (site_calls step) = 1
            ∧ state_writes step + length (logged_at WARNING step) = 1
            ∧ added_entities step = []) as (Hcall & Hend & ->)
      by (subst step; destruct (site_returns _ _ _); by compute).
    cbn [length]. split; [lia|]. split; [lia|done].
Qed.

End command_sequences.

Lemma alarm_commands_compose_witness :
  ∃ new,
    for_each
      [(@alarm_control_panel.ADTPulseAlarm.async_alarm_arm_away
          (vendor_returning false), example_alarm "off");
       (@alarm_control_panel.ADTPulseAlarm.async_alarm_arm_custom_bypass
          (vendor_returning false), example_alarm "off")]
      (λ call, call.1 call.2) [] = (Ok tt, [] ++ new)
    ∧ length (site_calls new) = 2
    ∧ state_writes new + length (logged_at WARNING new) = 2
    ∧ added_entities new = [].
Proof.
  apply (@alarm_commands_compose (vendor_returning false)
           [(@alarm_control_panel.ADTPulseAlarm.async_alarm_arm_away
               (vendor_returning false), example_alarm "off");
            (@alarm_control_panel.ADTPulseAlarm.async_alarm_arm_custom_bypass
               (vendor_returning false), example_alarm "off")] []).
  repeat (apply Forall_cons_2; [unfold alarm_commands; cbn; set_solver|]).
  apply Forall_nil_2.
Defined.

(** * Further properties of the zone classification *)

Section classification_more.
Import binary_sensor ADTPulseZoneSensor.

Lemma tag_table_keys :
  dom ADT_DEVICE_CLASS_TAG_MAP = list_to_set table_order.
Proof. apply (bool_decide_unpack _). vm_compute. exact I. Qed.

Lemma known_tag_in_table_order tag :
  is_Some (ADT_DEVICE_CLASS_TAG_MAP !! tag) ↔ tag ∈ table_order.
Proof.
  rewrite <- elem_of_dom, tag_table_keys. apply elem_of_list_to_set.
Qed.

Lemma door_tag tag :
  ADT_DEVICE_CLASS_TAG_MAP !! tag = Some DOOR → tag = "doorWindow".
Proof.
  unfold ADT_DEVICE_CLASS_TAG_MAP. rewrite !lookup_insert, lookup_empty.
  repeat case_decide; by intros [=].
Qed.

Lemma no_window_tag tag : ADT_DEVICE_CLASS_TAG_MAP !! tag ≠ Some WINDOW.
Proof.
  unfold ADT_DEVICE_CLASS_TAG_MAP. rewrite !lookup_insert, lookup_empty.
  repeat case_decide; by intros [=].
Qed.

Lemma scan_tags_some tags c :
  scan_tags tags = Some c →
  ∃ tag, tag ∈ tags ∧ ADT_DEVICE_CLASS_TAG_MAP !! tag = Some c.
Proof.
  induction tags as [|tag tags IH]; simpl; [done|].
  destruct (ADT_DEVICE_CLASS_TAG_MAP !! tag) as [c'|] eqn:Htag.
  - intros [= ->]. exists tag. split; [apply elem_of_cons; by left|done].
  - intros (tag' & Hin & Htag')%IH. exists tag'.
    split; [apply elem_of_cons; by right|done].
Qed.

Lemma determine_device_class_inv zone_data tr c tr' :
  _determine_device_class zone_data tr = (Ok c, tr') →
  "sensor" ∈ ADTPulseZoneData.tags zone_data
  ∧ ∃ c0, scan_tags (ADTPulseZoneData.tags zone_data) = Some c0
          ∧ c = (if decide (c0 = DOOR) then
                   if str_in "Window" (ADTPulseZoneData.name zone_data)
                      || str_in "window" (ADTPulseZoneData.name zone_data)
                   then WINDOW else c0
                 else c0).
Proof.
  intros Hrun.
  destruct (decide ("sensor" ∈ ADTPulseZoneData.tags zone_data)) as [Hin|Hout].
  - destruct (scan_tags (ADTPulseZoneData.tags zone_data)) as [c0|] eqn:Hscan.
    + rewrite (determine_device_class_found _ c0) in Hrun by done.
      injection Hrun as <- _. split; [done|]. by exists c0.
    + rewrite determine_device_class_unknown in Hrun by (by right). done.
  - rewrite determine_device_class_unknown in Hrun by (by left). done.
Qed.

(** A zone is classified exactly when it has the tag "sensor" and at
    least one of the eight tags of the table; otherwise the call raises. *)
Theorem classified_iff_sensor_and_known_tag zone_data tr :
  (∃ c tr', _determine_device_class zone_data tr = (Ok c, tr'))
  ↔ "sensor" ∈ ADTPulseZoneData.tags zone_data
    ∧ ∃ tag, tag ∈ ADTPulseZoneData.tags zone_data ∧ tag ∈ table_order.
Proof.
  split.
  - intros (c & tr' & (Hsensor & c0 & (tag & Hin & Htag)%scan_tags_some & _)
                       %determine_device_class_inv).
    split; [done|]. exists tag. split; [done|].
    apply known_tag_in_table_order. by rewrite Htag.
  - intros (Hsensor & tag & Hin & [c Htag]%known_tag_in_table_order).
    destruct (scan_tags (ADTPulseZoneData.tags zone_data)) as [c0|] eqn:Hscan.
    + do 2 eexists. by apply (determine_device_class_found _ c0).
    + rewrite scan_tags_none, Forall_forall in Hscan.
      specialize (Hscan tag Hin). congruence.
Qed.

(** Every classification is backed by a tag of the zone: the window
    classification by "doorWindow" together with a name that contains
    "Window" or "window", every other one by a tag that the table maps
    to it; a door is never reported for such a name. *)
Theorem classification_backed_by_a_tag zone_data tr c tr' :
  _determine_device_class zone_data tr = (Ok c, tr') →
  "sensor" ∈ ADTPulseZoneData.tags zone_data
  ∧ (c = WINDOW →
     "doorWindow" ∈ ADTPulseZoneData.tags zone_data
     ∧ (occurs_in "Window" (ADTPulseZoneData.name zone_data)
        ∨ occurs_in "window" (ADTPulseZoneData.name zone_data)))
  ∧ (c ≠ WINDOW →
     ∃ tag, tag ∈ ADTPulseZoneData.tags zone_data
            ∧ ADT_DEVICE_CLASS_TAG_MAP !! tag = Some c)
  ∧ (c = DOOR →
     ¬ (occurs_in "Window" (ADTPulseZoneData.name zone_data)
        ∨ occurs_in "window" (ADTPulseZoneData.name zone_data))).
Proof.
  intros (Hsensor & c0 & Hscan & Hc)%determine_device_class_inv.
  split; [done|].
  pose proof (scan_tags_some _ _ Hscan) as (tag & Hin & Htag).
  pose proof (str_in_occurs "Window" (ADTPulseZoneData.name zone_data))
    as Hupper.
  pose proof (str_in_occurs "window" (ADTPulseZoneData.name zone_data))
    as Hlower.
  destruct (decide (c0 = DOOR)) as [->|Hother].
  - apply door_tag in Htag as Hdoor. subst tag.
    destruct (str_in "Window" _), (str_in "window" _); simpl in Hc; subst c.
    all: split;
      [intros Hw; first [discriminate Hw | split; [done|intuition]]|].
    all: split;
      [intros Hne; first [by destruct Hne | by exists "doorWindow"]|].
    all: intros Hd; first [discriminate Hd | intuition congruence].
  - subst c. split; [|split].
    + intros ->. by destruct (no_window_tag tag).
    + intros _. eauto.
    + done.
Qed.

(** When all the known tags of a zone stand for one and the same
    classification, the order of the zone's tags does not matter: two
    zones with the same name whose tags are permutations of each other
    get the same outcome. *)
Theorem tag_order_irrelevant_when_tags_agree zone1 zone2 tr :
  ADTPulseZoneData.name zone1 = ADTPulseZoneData.name zone2 →
  ADTPulseZoneData.tags zone1 ≡ₚ ADTPulseZoneData.tags zone2 →
  (∀ tag1 tag2 c1 c2,
     tag1 ∈ ADTPulseZoneData.tags zone1 →
     tag2 ∈ ADTPulseZoneData.tags zone1 →
     ADT_DEVICE_CLASS_TAG_MAP !! tag1 = Some c1 →
     ADT_DEVICE_CLASS_TAG_MAP !! tag2 = Some c2 → c1 = c2) →
  (_determine_device_class zone1 tr).1 = (_determine_device_class zone2 tr).1.
Proof.
  intros Hname Hperm Hagree.
  assert (scan_tags (ADTPulseZoneData.tags zone1)
          = scan_tags (ADTPulseZoneData.tags zone2)) as Hscan.
  { destruct (scan_tags (ADTPulseZoneData.tags zone1)) as [c1|] eqn:H1,
             (scan_tags (ADTPulseZoneData.tags zone2)) as [c2|] eqn:H2;
      [|exfalso..|done].
    - apply scan_tags_some in H1 as (tag1 & Hin1 & Htag1).
      apply scan_tags_some in H2 as (tag2 & Hin2 & Htag2).
      rewrite <- Hperm in Hin2. f_equal.
      exact (Hagree tag1 tag2 c1 c2 Hin1 Hin2 Htag1 Htag2).
    - apply scan_tags_some in H1 as (tag1 & Hin1 & Htag1).
      rewrite scan_tags_none, Forall_forall in H2.
      rewrite Hperm in Hin1. specialize (H2 tag1 Hin1). congruence.
    - apply scan_tags_some in H2 as (tag2 & Hin2 & Htag2).
      rewrite scan_tags_none, Forall_forall in H1.
      rewrite <- Hperm in Hin2. specialize (H1 tag2 Hin2). congruence. }
  unfold _determine_device_class. rewrite <- Hscan, <- Hname.
  destruct (decide ("sensor" ∈ ADTPulseZoneData.tags zone1)) as [Hin|Hout].
  - rewrite decide_True by (by rewrite <- Hperm).
    by destruct (scan_tags _).
  - rewrite decide_False by (by rewrite <- Hperm). done.
Qed.

End classification_more.

Lemma classification_backed_by_a_tag_witness :
  "sensor" ∈ ["sensor"; "doorWindow"]
  ∧ (WINDOW = WINDOW →
     "doorWindow" ∈ ["sensor"; "doorWindow"]
     ∧ (occurs_in "Window" "Kitchen Window"
        ∨ occurs_in "window" "Kitchen Window"))
  ∧ (WINDOW ≠ WINDOW →
     ∃ tag, tag ∈ ["sensor"; "doorWindow"]
            ∧ binary_sensor.ADT_DEVICE_CLASS_TAG_MAP !! tag = Some WINDOW)
  ∧ (WINDOW = DOOR →
     ¬ (occurs_in "Window" "Kitchen Window"
        ∨ occurs_in "window" "Kitchen Window")).
Proof.
  apply (classification_backed_by_a_tag
           (example_zone "Kitchen Window" ["sensor"; "doorWindow"] "OK") []
           WINDOW
           [Log INFO (DeterminedDeviceClass "Kitchen Window" WINDOW
                        ["sensor"; "doorWindow"])]).
  vm_compute. reflexivity.
Defined.

Lemma tag_order_irrelevant_when_tags_agree_witness :
  (binary_sensor.ADTPulseZoneSensor._determine_device_class
     (example_zone "Hall" ["motion"; "sensor"] "OK") []).1
  = (binary_sensor.ADTPulseZoneSensor._determine_device_class
       (example_zone "Hall" ["sensor"; "motion"] "OK") []).1.
Proof.
  apply (tag_order_irrelevant_when_tags_agree
           (example_zone "Hall" ["motion"; "sensor"] "OK")
           (example_zone "Hall" ["sensor"; "motion"] "OK") []).
  - reflexivity.
  - apply perm_swap.
  - intros tag1 tag2 c1 c2 Hin1 Hin2.
    cbn in Hin1, Hin2. rewrite !elem_of_cons, elem_of_nil in Hin1, Hin2.
    destruct Hin1 as [->|[->|[]]], Hin2 as [->|[->|[]]];
      vm_compute; congruence.
Defined.

(** * Further properties of the zone sensor *)

(** ** Decimal numerals *)

Example str_of_int_samples :
  str_of_int 0 = "0" ∧ str_of_int 12 = "12" ∧ str_of_int (-5) = "-5".
Proof. by vm_compute. Qed.

Lemma str_of_int_inj a b : str_of_int a = str_of_int b → a = b.
Proof.
  unfold str_of_int. intros Heq.
  apply (f_equal NilEmpty.int_of_string) in Heq.
  rewrite !NilEmpty.isi in Heq. injection Heq as Heq.
  apply (f_equal Z.of_int) in Heq. by rewrite !DecimalZ.of_to in Heq.
Qed.

Lemma string_of_uint_no_underscore d :
  has_char "_" (NilEmpty.string_of_uint d) = false.
Proof. induction d; cbn; done. Qed.

Lemma str_of_int_no_underscore n : has_char "_" (str_of_int n) = false.
Proof.
  unfold str_of_int. destruct (Z.to_int n); cbn.
  all: apply string_of_uint_no_underscore.
Qed.

Lemma has_char_after c a b : has_char c (a +:+ String c b) = true.
Proof.
  induction a as [|c' a IH].
  - rewrite append_empty_l. cbn. by rewrite Ascii.eqb_refl.
  - rewrite append_cons. cbn. rewrite IH. by destruct (Ascii.eqb c c').
Qed.

(** A string is cut in one way only at its last occurrence of [c]. *)
Lemma cut_at_last c a1 a2 d1 d2 :
  has_char c d1 = false → has_char c d2 = false →
  a1 +:+ String c d1 = a2 +:+ String c d2 → a1 = a2 ∧ d1 = d2.
Proof.
  intros Hd1 Hd2. revert a2.
  induction a1 as [|x a1 IH]; intros [|y a2];
    rewrite ?append_empty_l, ?append_cons.
  - by intros [= ->].
  - intros [= -> ->]. by rewrite has_char_after in Hd1.
  - intros [= -> <-]. by rewrite has_char_after in Hd2.
  - intros [= -> Heq]. destruct (IH _ Heq) as [-> ->]. done.
Qed.

Section zone_sensor_more.
Context `{PyADTPulseConst}.
Import binary_sensor.

(** The unique id of a zone sensor tells the site id and the zone id
    apart: two sensors have the same unique id exactly when they agree
    on both. *)
Theorem zone_unique_id_identifies_site_and_zone (e1 e2 : ZoneSensorSelf.t) :
  ADTPulseZoneSensor.unique_id e1 = ADTPulseZoneSensor.unique_id e2
  ↔ ADTPulseSite.id (ZoneSensorSelf._site e1)
    = ADTPulseSite.id (ZoneSensorSelf._site e2)
    ∧ ZoneSensorSelf._zone_id e1 = ZoneSensorSelf._zone_id e2.
Proof.
  unfold ADTPulseZoneSensor.unique_id. split.
  - intros Heq%append_cancel_l.
    change ("_" +:+ ?s) with (String "_" s) in Heq.
    apply cut_at_last in Heq as [Hsite Hzone%str_of_int_inj];
      [done|apply str_of_int_no_underscore..].
  - by intros [-> ->].
Qed.

Lemma icons_are_not_the_alert_icon c active inactive :
  ADT_SENSOR_ICON_MAP !! c = Some (active, inactive) →
  active ≠ "mdi:alert-octogram" ∧ inactive ≠ "mdi:alert-octogram".
Proof.
  assert (map_Forall (λ _ icons, icons.1 ≠ "mdi:alert-octogram"
                                 ∧ icons.2 ≠ "mdi:alert-octogram")
            ADT_SENSOR_ICON_MAP) as Hall
    by (apply (bool_decide_unpack _); vm_compute; exact I).
  intros Hicons. exact (Hall c (active, inactive) Hicons).
Qed.

(** The alert icon is shown, and an error logged, exactly for a
    classification that has no entry in the icon table; with an entry
    nothing is logged. *)
Theorem alert_icon_iff_no_table_entry (self : ZoneSensorSelf.t) tr :
  ((ADTPulseZoneSensor.icon self tr).1 = Ok "mdi:alert-octogram"
   ↔ ADT_SENSOR_ICON_MAP !! ADTPulseZoneSensor.device_class self = None)
  ∧ ((ADTPulseZoneSensor.icon self tr).2
     = tr ++ [Log ERROR (UnknownDeviceType
                           (ADTPulseZoneSensor.device_class self))]
     ↔ ADT_SENSOR_ICON_MAP !! ADTPulseZoneSensor.device_class self = None)
  ∧ (is_Some (ADT_SENSOR_ICON_MAP !! ADTPulseZoneSensor.device_class self)
     → (ADTPulseZoneSensor.icon self tr).2 = tr).
Proof.
  unfold ADTPulseZoneSensor.icon.
  destruct (ADT_SENSOR_ICON_MAP !! _) as [[active inactive]|] eqn:Hicons.
  - apply icons_are_not_the_alert_icon in Hicons as [Hactive Hinactive].
    destruct (ADTPulseZoneSensor.is_on self); cbn.
    all: split; [split; [intros [=]; congruence|done]|].
    all: split; [split; [|done]|done].
    all: intros Heq; apply (f_equal length) in Heq.
    all: rewrite length_app in Heq; cbn in Heq; lia.
  - cbn. split; [done|]. split; [done|]. by intros [? [=]].
Qed.

Lemma tag_classes_have_icons :
  map_Forall (λ _ c, is_Some (ADT_SENSOR_ICON_MAP !! c))
             ADT_DEVICE_CLASS_TAG_MAP.
Proof. apply (bool_decide_unpack _). vm_compute. exact I. Qed.

Lemma determined_class_has_icons zone_data tr c tr' :
  ADTPulseZoneSensor._determine_device_class zone_data tr = (Ok c, tr') →
  is_Some (ADT_SENSOR_ICON_MAP !! c).
Proof.
  intros (_ & c0 & (tag & _ & Htag)%scan_tags_some & ->)
         %determine_device_class_inv.
  pose proof (tag_classes_have_icons tag c0 Htag) as Hc0.
  destruct (decide (c0 = DOOR)); [|done].
  destruct (_ || _); [|done]. eexists. vm_compute. reflexivity.
Qed.

Lemma zone_init_inv coordinator site zone_id tr self tr' :
  ADTPulseZoneSensor.__init__ coordinator site zone_id tr = (Ok self, tr') →
  ∃ zones,
    ADTPulseSite.zones_as_dict site = Ok (Some zones)
    ∧ dict_get zones zone_id = Some (ZoneSensorSelf._my_zone self)
    ∧ ZoneSensorSelf._site self = site
    ∧ ZoneSensorSelf._zone_id self = zone_id
    ∧ is_Some (ADT_SENSOR_ICON_MAP !! ZoneSensorSelf._device_class self).
Proof.
  intros Hinit.
  destruct (ADTPulseSite.zones_as_dict site) as [[zones|]|e] eqn:Hzones.
  2,3: unfold ADTPulseZoneSensor.__init__, ADTPulseZoneSensor._get_my_zone
         in Hinit; rewrite Hzones in Hinit; by cbv in Hinit.
  destruct (dict_get zones zone_id) as [zone_data|] eqn:Hget.
  2: { unfold ADTPulseZoneSensor.__init__, ADTPulseZoneSensor._get_my_zone
         in Hinit. rewrite Hzones, Hget in Hinit. by cbv in Hinit. }
  exists zones. split; [done|].
  destruct (decide (classifiable zone_data)) as [Hyes|Hno].
  - destruct Hyes as [Hsensor [c0 Hscan]].
    unfold ADTPulseZoneSensor.__init__ in Hinit.
    rewrite run_bind, run_log in Hinit.
    rewrite run_bind, (get_my_zone_found _ zones _ zone_data) in Hinit by done.
    rewrite run_bind in Hinit.
    destruct (ADTPulseZoneSensor._determine_device_class zone_data _)
      as [[c|e] tr1] eqn:Hclass; [|done].
    apply determined_class_has_icons in Hclass.
    revert Hinit. run_effects. by intros [= <- _].
  - by rewrite (zone_init_raises _ _ zones _ zone_data) in Hinit.
Qed.

(** A zone sensor that the constructor has built always has icons: its
    [icon] is the icon of its classification for its current state,
    never the alert icon, and reading it logs nothing. *)
Theorem constructed_zone_sensor_has_icons
    coordinator site zone_id tr self tr' :
  ADTPulseZoneSensor.__init__ coordinator site zone_id tr = (Ok self, tr') →
  ∀ tr2, ∃ active inactive,
    ADT_SENSOR_ICON_MAP !! ADTPulseZoneSensor.device_class self
    = Some (active, inactive)
    ∧ ADTPulseZoneSensor.icon self tr2
      = (Ok (if ADTPulseZoneSensor.is_on self then active else inactive), tr2)
    ∧ active ≠ "mdi:alert-octogram" ∧ inactive ≠ "mdi:alert-octogram".
Proof.
  intros (zones & _ & _ & _ & _ & [[active inactive] Hicons])%zone_init_inv tr2.
  exists active, inactive. split; [done|]. split.
  - unfold ADTPulseZoneSensor.icon, ADTPulseZoneSensor.device_class.
    rewrite Hicons. by destruct (ADTPulseZoneSensor.is_on self).
  - by apply (icons_are_not_the_alert_icon _ _ _ Hicons).
Qed.

(** [_get_my_zone] returns the zone stored under a key of the site's
    dictionary, raises [KeyError] for any other id and [RuntimeError]
    when the site has no dictionary at all; an exception raised by
    reading the dictionary is passed on; it leaves no trace. *)
Theorem get_my_zone_cases site zone_id tr :
  match ADTPulseSite.zones_as_dict site with
  | Raise e =>
      ADTPulseZoneSensor._get_my_zone site zone_id tr = (Raise e, tr)
  | Ok None =>
      ADTPulseZoneSensor._get_my_zone site zone_id tr
      = (Raise (RuntimeError "ADT pulse returned null zone"), tr)
  | Ok (Some zones) =>
      (zone_id ∈ zones.*1 →
       ∃ zone_data, (zone_id, zone_data) ∈ zones
                    ∧ ADTPulseZoneSensor._get_my_zone site zone_id tr
                      = (Ok zone_data, tr))
      ∧ (zone_id ∉ zones.*1 →
         ADTPulseZoneSensor._get_my_zone site zone_id tr
         = (Raise KeyError, tr))
  end.
Proof.
  unfold ADTPulseZoneSensor._get_my_zone.
  destruct (ADTPulseSite.zones_as_dict site) as [[zones|]|e]; [|done..].
  split.
  - intros [zone_data Hget]%dict_get_key. exists zone_data.
    split; [by apply dict_get_item|]. by rewrite Hget.
  - intros Hmissing.
    destruct (dict_get zones zone_id) as [zone_data|] eqn:Hget; [|done].
    destruct Hmissing. apply dict_get_item in Hget.
    apply list_elem_of_fmap. by exists (zone_id, zone_data).
Qed.

End zone_sensor_more.

Lemma constructed_zone_sensor_has_icons_witness :
  ∃ active inactive,
    binary_sensor.ADT_SENSOR_ICON_MAP !! DOOR = Some (active, inactive)
    ∧ @binary_sensor.ADTPulseZoneSensor.icon pyadtpulse_values
        {| ZoneSensorSelf._site := example_home;
           ZoneSensorSelf._zone_id := 1;
           ZoneSensorSelf._my_zone :=
             example_zone "Front Door" ["sensor"; "doorWindow"] "OK";
           ZoneSensorSelf._device_class := DOOR |} []
      = (Ok (if @binary_sensor.ADTPulseZoneSensor.is_on pyadtpulse_values
                  {| ZoneSensorSelf._site := example_home;
                     ZoneSensorSelf._zone_id := 1;
                     ZoneSensorSelf._my_zone :=
                       example_zone "Front Door" ["sensor"; "doorWindow"] "OK";
                     ZoneSensorSelf._device_class := DOOR |}
             then active else inactive), [])
    ∧ active ≠ "mdi:alert-octogram" ∧ inactive ≠ "mdi:alert-octogram".
Proof.
  apply (@constructed_zone_sensor_has_icons pyadtpulse_values
           (example_coordinator example_sites)
           example_home 1 []
           {| ZoneSensorSelf._site := example_home;
              ZoneSensorSelf._zone_id := 1;
              ZoneSensorSelf._my_zone :=
                example_zone "Front Door" ["sensor"; "doorWindow"] "OK";
              ZoneSensorSelf._device_class := DOOR |}
           [Log DEBUG (AddingZoneSensor "1");
            Log INFO (DeterminedDeviceClass "Front Door" DOOR
                        ["sensor"; "doorWindow"]);
            Log DEBUG (CreatedSensor DOOR "Front Door")]).
  vm_compute. reflexivity.
Defined.

(** * Further properties of the sensor platform's set-up *)

Section sensor_setup_more.
Import binary_sensor.

Lemma zone_sensors_built coordinator site zones keys tr entities tr' :
  ADTPulseSite.zones_as_dict site = Ok (Some zones) →
  comprehension (ADTPulseZoneSensor.__init__ coordinator site) keys tr
  = (Ok entities, tr') →
  Forall2 (λ zone_id self,
             ZoneSensorSelf._zone_id self = zone_id
             ∧ ZoneSensorSelf._site self = site
             ∧ dict_get zones zone_id = Some (ZoneSensorSelf._my_zone self))
          keys entities.
Proof.
  intros Hzones. revert tr entities.
  induction keys as [|k keys IH]; intros tr entities.
  - intros [= <- _]. constructor.
  - destruct (ADTPulseZoneSensor.__init__ coordinator site k tr)
      as [[self|e] tr1] eqn:Hinit.
    + rewrite (comprehension_cons_ok _ _ _ _ _ _ Hinit).
      destruct (comprehension _ keys tr1) as [[rest|e] tr2] eqn:Hrest;
        [|done].
      intros [= <- <-]. constructor; [|exact (IH _ _ Hrest)].
      apply zone_init_inv in Hinit
        as (zones' & Hzones' & Hget & Hsite & Hid & _).
      split; [done|]. split; [done|]. congruence.
    + by rewrite (comprehension_cons_raise _ _ _ _ _ _ Hinit).
Qed.

Lemma added_entities_site_step zone_entities message gateway_entity :
  [] ++ added_entities [AddEntities zone_entities; Log DEBUG message;
                        AddEntities gateway_entity]
  = zone_entities ++ gateway_entity.
Proof. cbn. by rewrite (right_id [] (++)). Qed.

Lemma zone_sensors_of_site_step entities gateway :
  zone_sensor_entities
    ((ZoneSensorEntity <$> entities) ++ [GatewaySensorEntity gateway])
  = entities.
Proof.
  unfold zone_sensor_entities. rewrite omap_app. cbn.
  rewrite (right_id [] (++)).
  induction entities as [|e entities IH]; [done|]. cbn. by f_equal.
Qed.

(** The run of the loop body for a site with zones that can all be
    classified, with what the zone sensors are. *)
Lemma setup_site_run
    coordinator adt_service first_site other_sites site zones tr :
  PyADTPulse.sites adt_service = first_site :: other_sites →
  ADTPulseSite.zones_as_dict site = Ok (Some zones) →
  zones ≠ [] →
  Forall (λ item, classifiable item.2) zones →
  ∃ logs entities, Forall is_log logs ∧
    setup_site coordinator adt_service site tr =
    (Ok tt,
     tr ++ logs
        ++ [AddEntities (ZoneSensorEntity <$> entities);
            Log DEBUG (AddingGatewaySensor (ADTPulseSite.name first_site));
            AddEntities
              [GatewaySensorEntity (gateway_of adt_service first_site)]])
    ∧ Forall2 (λ zone_id self,
                 ZoneSensorSelf._zone_id self = zone_id
                 ∧ ZoneSensorSelf._site self = site
                 ∧ dict_get zones zone_id
                   = Some (ZoneSensorSelf._my_zone self))
              zones.*1 entities.
Proof.
  intros Hsites Hzones Hnonempty Hall. rewrite Forall_forall in Hall.
  destruct (zone_sensors_outcome coordinator site zones zones.*1 tr)
    as (logs & Hlogs & [[_ [entities Hbuilt]]|[Hbad _]]);
    [done|by apply Forall_forall|..].
  - exists logs, entities. split; [done|]. split.
    + unfold setup_site. rewrite Hzones.
      destruct zones as [|item zones']; [done|].
      rewrite run_bind, Hbuilt.
      unfold ADTPulseGatewaySensor.__init__. rewrite Hsites.
      run_effects. by rewrite <- !(assoc (++)).
    + by eapply zone_sensors_built.
  - apply Exists_exists in Hbad as (k & _ & z & Hget & Hnot).
    destruct Hnot. by apply (Hall (k, z)), dict_get_item.
Qed.

(** For a site whose zones can all be classified, the loop body runs
    as follows: log records only while the zone sensors are built, then
    one call of [async_add_entities] with one zone sensor per key of the
    site's dictionary, in the order of the keys, each bound to that
    site, that key and the zone stored under the key, then the debug
    record of the gateway sensor, then a second call with the gateway
    sensor alone. *)
Theorem setup_site_adds_a_sensor_per_zone
    coordinator adt_service first_site other_sites site zones tr :
  PyADTPulse.sites adt_service = first_site :: other_sites →
  ADTPulseSite.zones_as_dict site = Ok (Some zones) →
  zones ≠ [] →
  Forall (λ item, classifiable item.2) zones →
  ∃ logs entities, Forall is_log logs ∧
    setup_site coordinator adt_service site tr =
    (Ok tt,
     tr ++ logs
        ++ [AddEntities (ZoneSensorEntity <$> entities);
            Log DEBUG (AddingGatewaySensor (ADTPulseSite.name first_site));
            AddEntities
              [GatewaySensorEntity (gateway_of adt_service first_site)]])
    ∧ Forall2 (λ zone_id self,
                 ZoneSensorSelf._zone_id self = zone_id
                 ∧ ZoneSensorSelf._site self = site
                 ∧ dict_get zones zone_id
                   = Some (ZoneSensorSelf._my_zone self))
              zones.*1 entities.
Proof.
  intros Hsites Hzones Hnonempty Hall.
  by apply (setup_site_run _ _ _ other_sites).
Qed.

(** The zone sensors that the loop body adds for a site have pairwise
    distinct unique ids, the keys of a dictionary being distinct. *)
Theorem zone_unique_ids_distinct
    coordinator adt_service first_site other_sites site zones tr :
  PyADTPulse.sites adt_service = first_site :: other_sites →
  ADTPulseSite.zones_as_dict site = Ok (Some zones) →
  zones ≠ [] →
  NoDup zones.*1 →
  Forall (λ item, classifiable item.2) zones →
  ∃ new,
    setup_site coordinator adt_service site tr = (Ok tt, tr ++ new)
    ∧ NoDup (ADTPulseZoneSensor.unique_id
             <$> zone_sensor_entities (added_entities new)).
Proof.
  intros Hsites Hzones Hnonempty Hkeys Hall.
  destruct (setup_site_run coordinator adt_service first_site other_sites
              site zones tr) as (logs & entities & Hlogs & -> & Hbuilt);
    [done..|].
  eexists. split; [reflexivity|].
  rewrite added_entities_app, (added_entities_logs logs) by done.
  rewrite added_entities_site_step, zone_sensors_of_site_step.
  assert (ADTPulseZoneSensor.unique_id <$> entities
          = (λ zone_id, "adt_pulse_sensor_" +:+ ADTPulseSite.id site
                          +:+ "_" +:+ str_of_int zone_id) <$> zones.*1) as ->.
  { clear -Hbuilt. induction Hbuilt as [|k e ks es (Hid & Hsite & _) _ IH];
      [done|].
    cbn [fmap list_fmap]. f_equal; [|done].
    unfold ADTPulseZoneSensor.unique_id. by rewrite Hid, Hsite. }
  apply NoDup_fmap_2; [|done].
  intros a b Heq%append_cancel_l%append_cancel_l.
  change ("_" +:+ ?s) with (String "_" s) in Heq.
  injection Heq as Heq. by apply str_of_int_inj.
Qed.

End sensor_setup_more.

Lemma setup_site_adds_a_sensor_per_zone_witness :
  ∃ logs entities, Forall is_log logs ∧
    binary_sensor.setup_site (example_coordinator example_sites)
      (example_service example_sites) example_lodge [] =
    (Ok tt,
     [] ++ logs
        ++ [AddEntities (ZoneSensorEntity <$> entities);
            Log DEBUG (AddingGatewaySensor (ADTPulseSite.name example_home));
            AddEntities
              [GatewaySensorEntity
                 (gateway_of (example_service example_sites) example_home)]])
    ∧ Forall2 (λ zone_id self,
                 ZoneSensorSelf._zone_id self = zone_id
                 ∧ ZoneSensorSelf._site self = example_lodge
                 ∧ dict_get
                     [(4%Z, example_zone "Loft" ["sensor"; "motion"] "OK");
                      (2%Z, example_zone "Back Window"
                              ["sensor"; "doorWindow"] "OK")] zone_id
                   = Some (ZoneSensorSelf._my_zone self))
              [(4%Z, example_zone "Loft" ["sensor"; "motion"] "OK");
               (2%Z, example_zone "Back Window"
                       ["sensor"; "doorWindow"] "OK")].*1
              entities.
Proof.
  apply (setup_site_adds_a_sensor_per_zone
           (example_coordinator example_sites) (example_service example_sites)
           example_home [example_lodge; example_cabin] example_lodge).
  - reflexivity.
  - reflexivity.
  - discriminate.
  - repeat (apply Forall_cons_2; [by_evaluation|]). apply Forall_nil_2.
Defined.

(** The two zone sensors of the sample site Lodge, as added: in the
    order of the dictionary's keys, not in the order of their values. *)
Example lodge_zone_sensors :
  (λ self, (ZoneSensorSelf._zone_id self, ZoneSensorSelf._device_class self,
            binary_sensor.ADTPulseZoneSensor.unique_id self))
  <$> zone_sensor_entities
        (added_entities
           (binary_sensor.setup_site (example_coordinator example_sites)
              (example_service example_sites) example_lodge []).2)
  = [(4%Z, MOTION, "adt_pulse_sensor_2_4");
     (2%Z, WINDOW, "adt_pulse_sensor_2_2")].
Proof. by vm_compute. Qed.

Lemma zone_unique_ids_distinct_witness :
  ∃ new,
    binary_sensor.setup_site (example_coordinator example_sites)
      (example_service example_sites) example_lodge []
    = (Ok tt, [] ++ new)
    ∧ NoDup (binary_sensor.ADTPulseZoneSensor.unique_id
             <$> zone_sensor_entities (added_entities new)).
Proof.
  apply (zone_unique_ids_distinct
           (example_coordinator example_sites) (example_service example_sites)
           example_home [example_lodge; example_cabin] example_lodge
           [(4%Z, example_zone "Loft" ["sensor"; "motion"] "OK");
            (2%Z, example_zone "Back Window"
                    ["sensor"; "doorWindow"] "OK")]).
  - reflexivity.
  - reflexivity.
  - discriminate.
  - by_evaluation.
  - repeat (apply Forall_cons_2; [by_evaluation|]). apply Forall_nil_2.
Defined.

Section sensor_setup_outcomes.
Import binary_sensor.




(** An exception raised by reading the zone dictionary of a site leaves
    [async_setup_entry] as it is: nothing is logged for that site, and
    the platform has received the entities of the sites before it and
    nothing of the sites after it. *)
Theorem unreadable_zones_end_setup
    coordinator adt_service earlier site later e tr tr1 :
  ADTPulseDataUpdateCoordinator.adtpulse coordinator = Some adt_service →
  PyADTPulse.sites adt_service = earlier ++ site :: later →
  for_each earlier (setup_site coordinator adt_service) tr = (Ok tt, tr1) →
  ADTPulseSite.zones_as_dict site = Raise e →
  async_setup_entry (Some coordinator) tr = (Raise e, tr1).
Proof.
  intros Hservice Hsites Hearlier Hread.
  unfold async_setup_entry. rewrite Hservice.
  assert (for_each (PyADTPulse.sites adt_service)
            (setup_site coordinator adt_service) tr = (Raise e, tr1)) as <-.
  { rewrite Hsites, (for_each_app _ _ _ _ _ Hearlier).
    cbn [for_each]. by rewrite run_bind, (setup_site_read_raises _ _ _ e). }
  destruct (PyADTPulse.sites adt_service) eqn:Hlist; [|done].
  by destruct earlier.
Qed.

(** A zone that cannot be classified ends the whole set-up: the
    [ValueError] leaves [async_setup_entry], and the platform has then
    received the entities of the sites before the zone's site and
    nothing else, neither the other zones of that site nor anything of
    the sites after it. *)
Theorem unclassifiable_zone_ends_setup
    coordinator adt_service earlier site later zones zone_id zone_data
    tr tr1 :
  ADTPulseDataUpdateCoordinator.adtpulse coordinator = Some adt_service →
  PyADTPulse.sites adt_service = earlier ++ site :: later →
  for_each earlier (setup_site coordinator adt_service) tr = (Ok tt, tr1) →
  ADTPulseSite.zones_as_dict site = Ok (Some zones) →
  dict_get zones zone_id = Some zone_data →
  ¬ classifiable zone_data →
  ∃ tr',
    async_setup_entry (Some coordinator) tr
    = (Raise (ValueError "Unknown ADT Pulse device class None"), tr')
    ∧ added_entities tr' = added_entities tr1.
Proof.
  intros Hservice Hsites Hearlier Hzones Hget Hnot.
  destruct (setup_site_unclassifiable coordinator adt_service site zones
              zone_id zone_data tr1) as (logs & Hlogs & Hrun); [done..|].
  exists (tr1 ++ logs). split.
  - unfold async_setup_entry. rewrite Hservice.
    assert (for_each (PyADTPulse.sites adt_service)
              (setup_site coordinator adt_service) tr
            = (Raise (ValueError "Unknown ADT Pulse device class None"),
               tr1 ++ logs)) as <-.
    { rewrite Hsites, (for_each_app _ _ _ _ _ Hearlier).
      cbn [for_each]. by rewrite run_bind, Hrun. }
    destruct (PyADTPulse.sites adt_service) eqn:Hlist; [|done].
    by destruct earlier.
  - rewrite added_entities_app, (added_entities_logs logs) by done.
    by rewrite (right_id [] (++)).
Qed.

End sensor_setup_outcomes.

Lemma unreadable_zones_end_setup_witness :
  binary_sensor.async_setup_entry
    (Some (example_coordinator [example_home; example_shed; example_cabin]))
    []
  = (Raise (RuntimeError "No zones exist"),
     (for_each [example_home]
        (binary_sensor.setup_site
           (example_coordinator [example_home; example_shed; example_cabin])
           (example_service [example_home; example_shed; example_cabin]))
        []).2).
Proof.
  apply (unreadable_zones_end_setup
           (example_coordinator [example_home; example_shed; example_cabin])
           (example_service [example_home; example_shed; example_cabin])
           [example_home] example_shed [example_cabin]).
  - reflexivity.
  - reflexivity.
  - vm_compute. reflexivity.
  - reflexivity.
Defined.

Section no_sites.
Context `{Slugify}.

(** With a service that reports no sites, both platforms log one error
    and return; no entity is handed to the platform. *)
Theorem no_sites_at_setup coordinator adt_service tr :
  ADTPulseDataUpdateCoordinator.adtpulse coordinator = Some adt_service →
  PyADTPulse.sites adt_service = [] →
  alarm_control_panel.async_setup_entry (Some coordinator) tr
  = (Ok tt, tr ++ [Log ERROR (AlarmNoSites (Some adt_service))])
  ∧ binary_sensor.async_setup_entry (Some coordinator) tr
    = (Ok tt, tr ++ [Log ERROR (SensorNoSites adt_service)])
  ∧ added_entities (tr ++ [Log ERROR (AlarmNoSites (Some adt_service))])
    = added_entities tr
  ∧ added_entities (tr ++ [Log ERROR (SensorNoSites adt_service)])
    = added_entities tr.
Proof.
  intros Hservice Hsites.
  unfold alarm_control_panel.async_setup_entry,
    binary_sensor.async_setup_entry.
  rewrite Hservice, Hsites, !added_entities_app. cbn.
  by rewrite !(right_id [] (++)).
Qed.

End no_sites.

Lemma no_sites_at_setup_witness :
  @alarm_control_panel.async_setup_entry example_slugify
    (Some (example_coordinator [])) []
  = (Ok tt, [] ++ [Log ERROR (AlarmNoSites (Some (example_service [])))])
  ∧ binary_sensor.async_setup_entry (Some (example_coordinator [])) []
    = (Ok tt, [] ++ [Log ERROR (SensorNoSites (example_service []))])
  ∧ added_entities
      ([] ++ [Log ERROR (AlarmNoSites (Some (example_service [])))])
    = added_entities []
  ∧ added_entities ([] ++ [Log ERROR (SensorNoSites (example_service []))])
    = added_entities [].
Proof.
  apply (@no_sites_at_setup example_slugify
           (example_coordinator []) (example_service []) []);
    reflexivity.
Defined.

Lemma unclassifiable_zone_ends_setup_witness :
  ∃ tr',
    binary_sensor.async_setup_entry
      (Some (example_coordinator
               [example_home;
                example_barn;
                example_cabin])) []
    = (Raise (ValueError "Unknown ADT Pulse device class None"), tr')
    ∧ added_entities tr'
      = added_entities
          (for_each
             [example_home]
             (binary_sensor.setup_site
                (example_coordinator
                   [example_home;
                    example_barn;
                    example_cabin])
                (example_service
                   [example_home;
                    example_barn;
                    example_cabin])) []).2.
Proof.
  eapply (unclassifiable_zone_ends_setup _ _
            [example_home]
            (example_barn)
            [example_cabin]
            _ 3 (example_zone "Meter" ["sensor"; "power"] "OK")).
  - reflexivity.
  - reflexivity.
  - vm_compute. reflexivity.
  - reflexivity.
  - vm_compute. reflexivity.
  - intros [_ [c Hc]]. vm_compute in Hc. discriminate.
Defined.
